(** * MacroMind backend: the refresh pipeline, the rule engine and the
      query surface, embedded from the Python sources.

    A Python float is modelled by the rational it denotes ([Q]).  The
    arithmetic of the fetcher is binary64: every operation rounds its exact
    result to the nearest double, ties to even ([Float.double]), a decimal
    literal of the fetcher is the double it denotes, and [round(x, 2)] is
    the double nearest to the exact value of [x] rounded half-even at two
    decimals.  The thresholds of the rule engine are all doubles, and it
    compares and averages the stored values as they are.  NaN and the
    infinities are outside the model: an operation whose result leaves the
    binary64 range gives an infinity in Python and a finite rational here;
    the sign of a zero is not tracked.  Python dicts keep insertion order,
    which the alert engine observes, so a dict is an association list with
    unique keys.  The effects of the sources that reach a result are
    explicit inputs: the upstream HTTP answer of a fetch, the clock reading
    taken by [datetime.now().isoformat()], and the builtins [float],
    [str.upper] and the rendering of floats in f-strings. *)

From Stdlib Require Import QArith Qround Qabs Qpower ZArith String Ascii List Bool Lia Lqa.
From Stdlib Require Floats.
Import ListNotations.

Open Scope string_scope.
Open Scope Q_scope.

(** ** Float comparisons as booleans *)

Module Float.

Definition leb (x y : Q) : bool := Qle_bool x y.
Definition ltb (x y : Q) : bool := negb (Qle_bool y x).
Definition geb (x y : Q) : bool := leb y x.
Definition gtb (x y : Q) : bool := ltb y x.
Definition neqb (x y : Q) : bool := negb (Qeq_bool x y).

(** Python's [abs] on a float. *)
Definition abs (x : Q) : Q := Qabs x.

(** Python's two-argument [min]: the first argument unless the second is
    strictly smaller. *)
Definition min (x y : Q) : Q := if ltb y x then y else x.

(** Round half to even to an integer, the tie rule of Python's [round]. *)
Definition round_half_even (x : Q) : Z :=
  let f := Qfloor x in
  match Qcompare (x - inject_Z f) (1 # 2) with
  | Lt => f
  | Gt => (f + 1)%Z
  | Eq => if Z.even f then f else (f + 1)%Z
  end.

(** Two to the power [e], for any integer [e]. *)
Definition pow2 (e : Z) : Q := Qpower 2 e.

(** For a positive [x], the integer [k] with [2^k <= x < 2^(k+1)]. *)
Definition ilog2 (x : Q) : Z :=
  let k := (Z.log2 (Qnum x) - Z.log2 (Zpos (Qden x)))%Z in
  if Qle_bool (pow2 k) x then k else (k - 1)%Z.

(** The exponent of the last place of a binary64 number next to [x]:
    53 significant bits, subnormal below [2^-1022]. *)
Definition exponent (x : Q) : Z := Z.max (ilog2 (Qabs x) - 52) (-1074).

(** The double nearest to [x], ties to even: what a binary64 operation
    makes of its exact result, and what a decimal literal denotes. *)
Definition double (x : Q) : Q :=
  let x := Qred x in
  if Qeq_bool x 0 then 0
  else Qred (inject_Z (round_half_even (x / pow2 (exponent x))) * pow2 (exponent x)).

(** Python's [-], [/] and [*] on floats. *)
Definition sub (x y : Q) : Q := double (x - y).
Definition div (x y : Q) : Q := double (x / y).
Definition mul (x y : Q) : Q := double (x * y).

(** Python's [round(x, ndigits)] for a float [x] and a non-negative
    [ndigits]: the exact value of [x] is rounded half-even at [ndigits]
    decimals, and the result is the double nearest to that decimal. *)
Definition round (x : Q) (ndigits : nat) : Q :=
  let scale := inject_Z (10 ^ Z.of_nat ndigits) in
  double (inject_Z (round_half_even (x * scale)) / scale).

(** [numpy.mean] of a non-empty list. *)
Definition mean (l : list Q) : Q :=
  fold_left Qplus l 0 / inject_Z (Z.of_nat (length l)).

End Float.

Infix "<=?" := Float.leb (at level 70, no associativity) : Q_scope.
Infix "<?" := Float.ltb (at level 70, no associativity) : Q_scope.
Infix ">=?" := Float.geb (at level 70, no associativity) : Q_scope.
Infix ">?" := Float.gtb (at level 70, no associativity) : Q_scope.

(** ** Insertion-ordered dictionaries with string keys *)

Module Dict.
Section WithValue.
Context {V : Type}.

Definition t : Type := list (string * V).

Definition empty : t := [].

(** [d.get(k)] *)
Fixpoint get (k : string) (d : t) : option V :=
  match d with
  | [] => None
  | (k', v) :: d' => if String.eqb k k' then Some v else get k d'
  end.

(** [k in d] *)
Definition contains (k : string) (d : t) : bool :=
  match get k d with Some _ => true | None => false end.

(** [d[k] = v]: an existing key keeps its position, a new key goes last. *)
Fixpoint set (k : string) (v : V) (d : t) : t :=
  match d with
  | [] => [(k, v)]
  | (k', v') :: d' =>
      if String.eqb k k' then (k', v) :: d' else (k', v') :: set k v d'
  end.

(** [d.items()], in insertion order. *)
Definition items (d : t) : list (string * V) := d.

Definition keys (d : t) : list string := map fst d.

End WithValue.
Arguments t : clear implicits.
End Dict.

(** ** app/models.py *)

Module EconomicIndicator.
Record t : Type := mk {
  series_id : string;
  name : string;
  latest_value : Q;
  previous_value : Q;
  change_percent : Q;
  date : string;
  trend : string
}.
End EconomicIndicator.

Module AgentInsight.
Record t : Type := mk {
  timestamp : string;
  economic_health : string;
  key_concerns : list string;
  opportunities : list string;
  confidence : Q;
  summary : string
}.
End AgentInsight.

Module AlertMessage.
Record t : Type := mk {
  severity : string;
  indicator : string;
  message : string;
  timestamp : string
}.
End AlertMessage.

Module HealthCheck.
Record t : Type := mk {
  status : string;
  timestamp : string;
  data_available : bool;
  last_update : option string
}.
End HealthCheck.

(** ** app/config.py *)

Module config.

Record IndicatorConfig : Type := mkConfig {
  series_id : string;
  name : string
}.

Definition CORE_INDICATORS : Dict.t IndicatorConfig :=
  [ ("GDP", mkConfig "GDP" "Gross Domestic Product");
    ("UNEMPLOYMENT", mkConfig "UNRATE" "Unemployment Rate");
    ("INFLATION", mkConfig "CPIAUCSL" "Consumer Price Index");
    ("FED_FUNDS", mkConfig "FEDFUNDS" "Federal Funds Rate");
    ("CONSUMER_SENTIMENT", mkConfig "UMCSENT" "Consumer Sentiment") ].

End config.

(** ** app/data_fetcher.py *)

Module data_fetcher.

(** One element of the payload's ["observations"] array. *)
Record Observation : Type := mkObs {
  value : string;
  date : string
}.

(** What the HTTP exchange of one fetch gives: an exception raised by the
    request, the status check or the JSON decoding, or the decoded object,
    whose ["observations"] key may be missing.  Observations are objects
    with a string ["value"] and a ["date"]. *)
Inductive Response : Type :=
| Raised
| Json (observations : option (list Observation)).

(** The dict [fetch_latest_data] returns. *)
Record FetchedData : Type := mkData {
  series_id : string;
  latest_value : Q;
  previous_value : Q;
  change_percent : Q;
  data_date : string;
  trend : string
}.

Section Fetcher.

(** Python's [float(str)], giving the value of the double it returns;
    [None] stands for the [ValueError] it raises. *)
Variable float : string -> option Q.

(** [float(o["value"]) if o["value"] != "." else 0] *)
Definition value_or_zero (o : Observation) : option Q :=
  if negb (String.eqb (value o) ".") then float (value o) else Some 0.

(** The unrounded local [change_percent]. *)
Definition raw_change_percent (latest_val prev_val : Q) : Q :=
  if Float.neqb prev_val 0
  then Float.mul (Float.div (Float.sub latest_val prev_val) prev_val) 100
  else 0.

Definition trend_of (change_percent : Q) : string :=
  if change_percent >? Float.double 0.1 then "up"
  else if change_percent <? - Float.double 0.1 then "down"
  else "stable".

(** [FREDDataFetcher.fetch_latest_data]; every exception inside the [try]
    ends in [return None]. *)
Definition fetch_latest_data (series_id : string) (response : Response)
  : option FetchedData :=
  match response with
  | Raised => None
  | Json None => None
  | Json (Some observations) =>
      match observations with
      | latest :: previous :: _ =>
          match value_or_zero latest with
          | None => None
          | Some latest_val =>
              match value_or_zero previous with
              | None => None
              | Some prev_val =>
                  let change_percent := raw_change_percent latest_val prev_val in
                  Some {| series_id := series_id;
                          latest_value := latest_val;
                          previous_value := prev_val;
                          change_percent := Float.round change_percent 2;
                          data_date := date latest;
                          trend := trend_of change_percent |}
              end
          end
      | _ => None
      end
  end.

(** The body of the loop of [update_economic_data] for one configured
    indicator; [upstream] gives the HTTP exchange of each series. *)
Definition update_step (upstream : string -> Response)
    (indicators : Dict.t EconomicIndicator.t)
    (entry : string * config.IndicatorConfig) : Dict.t EconomicIndicator.t :=
  let '(key, cfg) := entry in
  match fetch_latest_data (config.series_id cfg) (upstream (config.series_id cfg)) with
  | Some data =>
      Dict.set key
        (EconomicIndicator.mk (series_id data) (config.name cfg)
           (latest_value data) (previous_value data) (change_percent data)
           (data_date data) (trend data))
        indicators
  | None => indicators
  end.

(** [update_economic_data]: the result is the new value of the global
    [economic_data_cache]; the argument is its value before the call. *)
Definition update_economic_data (upstream : string -> Response)
    (economic_data_cache : Dict.t EconomicIndicator.t)
  : Dict.t EconomicIndicator.t :=
  let indicators := Dict.empty in
  let indicators :=
    fold_left (update_step upstream) (Dict.items config.CORE_INDICATORS) indicators in
  indicators.

End Fetcher.

(** [get_economic_data] *)
Definition get_economic_data (economic_data_cache : Dict.t EconomicIndicator.t)
  : Dict.t EconomicIndicator.t := economic_data_cache.

End data_fetcher.

(** ** app/agent.py *)

Module agent.

Definition Indicators : Type := Dict.t EconomicIndicator.t.

(** The attributes [__init__] sets; no method reads or assigns them. *)
Record EconomicIntelligenceAgent : Type := mkAgent {
  last_analysis : option AgentInsight.t;
  alerts : list AlertMessage.t
}.

Definition __init__ : EconomicIntelligenceAgent := mkAgent None [].

(** [_score_employment] *)
Definition _score_employment (unemployment : option EconomicIndicator.t) : option Q :=
  match unemployment with
  | None => None
  | Some unemployment =>
      let rate := EconomicIndicator.latest_value unemployment in
      if rate <=? 3.5 then Some 10.0
      else if rate <=? 4.5 then Some 8.0
      else if rate <=? 6.0 then Some 6.0
      else if rate <=? 8.0 then Some 4.0
      else Some 2.0
  end.

(** [_score_inflation] *)
Definition _score_inflation (cpi : option EconomicIndicator.t) : option Q :=
  match cpi with
  | None => None
  | Some cpi =>
      let change := Float.abs (EconomicIndicator.change_percent cpi) in
      if change <=? 2.5 then Some 9.0
      else if change <=? 4.0 then Some 7.0
      else if change <=? 6.0 then Some 5.0
      else Some 3.0
  end.

(** [_score_growth] *)
Definition _score_growth (gdp : option EconomicIndicator.t) : option Q :=
  match gdp with
  | None => None
  | Some gdp =>
      let change := EconomicIndicator.change_percent gdp in
      if change >=? 3.0 then Some 9.0
      else if change >=? 2.0 then Some 7.0
      else if change >=? 1.0 then Some 6.0
      else if change >=? 0 then Some 4.0
      else Some 2.0
  end.

(** [_score_sentiment] *)
Definition _score_sentiment (sentiment : option EconomicIndicator.t) : option Q :=
  match sentiment with
  | None => None
  | Some sentiment =>
      let value := EconomicIndicator.latest_value sentiment in
      if value >=? 100 then Some 9.0
      else if value >=? 90 then Some 7.0
      else if value >=? 80 then Some 6.0
      else if value >=? 70 then Some 4.0
      else Some 3.0
  end.

(** [_score_monetary_policy] *)
Definition _score_monetary_policy (fed_funds : option EconomicIndicator.t) : option Q :=
  match fed_funds with
  | None => None
  | Some fed_funds =>
      let rate := EconomicIndicator.latest_value fed_funds in
      let trend := EconomicIndicator.trend fed_funds in
      if (rate <=? 2.0) && String.eqb trend "stable" then Some 8.0
      else if (rate <=? 5.0) && String.eqb trend "up" then Some 6.0
      else if rate >? 5.0 then Some 4.0
      else Some 7.0
  end.

(** The comprehension [[score for score in [...] if score is not None]]. *)
Fixpoint not_none (l : list (option Q)) : list Q :=
  match l with
  | [] => []
  | Some score :: l' => score :: not_none l'
  | None :: l' => not_none l'
  end.

(** The local [scores] of [analyze_economic_conditions]. *)
Definition scores (indicators : Indicators) : list Q :=
  let employment_score := _score_employment (Dict.get "UNEMPLOYMENT" indicators) in
  let inflation_score := _score_inflation (Dict.get "INFLATION" indicators) in
  let growth_score := _score_growth (Dict.get "GDP" indicators) in
  let sentiment_score := _score_sentiment (Dict.get "CONSUMER_SENTIMENT" indicators) in
  let monetary_score := _score_monetary_policy (Dict.get "FED_FUNDS" indicators) in
  not_none [employment_score; inflation_score; growth_score; sentiment_score; monetary_score].

(** The local [overall_score]: [np.mean(scores) if scores else 5.0]. *)
Definition overall_score (indicators : Indicators) : Q :=
  match scores indicators with
  | [] => 5.0
  | (_ :: _) as scores => Float.mean scores
  end.

(** The local [health]. *)
Definition health_of (overall_score : Q) : string :=
  if overall_score >=? 7 then "strong"
  else if overall_score >=? 5 then "moderate"
  else "weak".

(** [l.append(x)] *)
Definition append {A : Type} (l : list A) (x : A) : list A := (l ++ [x])%list.

(** [', '.join(l)] and friends. *)
Definition join (sep : string) (l : list string) : string := String.concat sep l.

Section Formatting.

(** How an f-string renders a float ([str] of a float). *)
Variable float_str : Q -> string.

(** [_identify_concerns] *)
Definition _identify_concerns (indicators : Indicators) : list string :=
  let concerns := [] in
  let concerns :=
    match Dict.get "UNEMPLOYMENT" indicators with
    | Some unemployment =>
        if EconomicIndicator.latest_value unemployment >? 6.0
        then append concerns
               ("High unemployment at "
                  ++ float_str (EconomicIndicator.latest_value unemployment) ++ "%")
        else if String.eqb (EconomicIndicator.trend unemployment) "up"
        then append concerns
               ("Rising unemployment trend")
        else concerns
    | None => concerns
    end in
  let concerns :=
    match Dict.get "INFLATION" indicators with
    | Some inflation =>
        if Float.abs (EconomicIndicator.change_percent inflation) >? 5.0
        then append concerns
               ("High inflation volatility: "
                  ++ float_str (EconomicIndicator.change_percent inflation) ++ "%")
        else concerns
    | None => concerns
    end in
  let concerns :=
    match Dict.get "GDP" indicators with
    | Some gdp =>
        if EconomicIndicator.change_percent gdp <? 0
        then append concerns
               ("Negative GDP growth")
        else concerns
    | None => concerns
    end in
  let concerns :=
    match Dict.get "CONSUMER_SENTIMENT" indicators with
    | Some sentiment =>
        if EconomicIndicator.latest_value sentiment <? 70
        then append concerns
               ("Low consumer confidence")
        else concerns
    | None => concerns
    end in
  let concerns :=
    match Dict.get "FED_FUNDS" indicators with
    | Some fed_funds =>
        if EconomicIndicator.latest_value fed_funds >? 6.0
        then append concerns
               ("High interest rates constraining growth")
        else concerns
    | None => concerns
    end in
  concerns.

(** [_identify_opportunities] *)
Definition _identify_opportunities (indicators : Indicators) : list string :=
  let opportunities := [] in
  let opportunities :=
    match Dict.get "UNEMPLOYMENT" indicators with
    | Some unemployment =>
        if EconomicIndicator.latest_value unemployment <? 4.0
        then append opportunities
               ("Strong labor market supports consumer spending")
        else if String.eqb (EconomicIndicator.trend unemployment) "down"
        then append opportunities
               ("Improving employment conditions")
        else opportunities
    | None => opportunities
    end in
  let opportunities :=
    match Dict.get "FED_FUNDS" indicators with
    | Some fed_funds =>
        if String.eqb (EconomicIndicator.trend fed_funds) "down"
        then append opportunities
               ("Easing monetary policy supports growth")
        else if EconomicIndicator.latest_value fed_funds <? 3.0
        then append opportunities
               ("Low interest rates support investment")
        else opportunities
    | None => opportunities
    end in
  let opportunities :=
    match Dict.get "CONSUMER_SENTIMENT" indicators with
    | Some sentiment =>
        if String.eqb (EconomicIndicator.trend sentiment) "up"
        then append opportunities
               ("Improving consumer confidence")
        else if EconomicIndicator.latest_value sentiment >? 90
        then append opportunities
               ("High consumer confidence drives spending")
        else opportunities
    | None => opportunities
    end in
  let opportunities :=
    match Dict.get "GDP" indicators with
    | Some gdp =>
        if EconomicIndicator.change_percent gdp >? 2.5
        then append opportunities
               ("Strong economic growth momentum")
        else opportunities
    | None => opportunities
    end in
  let opportunities :=
    match Dict.get "INFLATION" indicators with
    | Some inflation =>
        if Float.abs (EconomicIndicator.change_percent inflation) <? 2.0
        then append opportunities
               ("Stable inflation supports economic planning")
        else opportunities
    | None => opportunities
    end in
  opportunities.

(** [_generate_summary] *)
Definition _generate_summary (health : string) (indicators : Indicators)
    (concerns opportunities : list string) : string :=
  let summary_parts := ["Economic health is currently " ++ health ++ "."] in
  let summary_parts :=
    match concerns with
    | _ :: _ =>
        append summary_parts
          ("Key concerns include: " ++ join ", " (firstn 2 concerns) ++ ".")
    | [] => summary_parts
    end in
  let summary_parts :=
    match opportunities with
    | _ :: _ =>
        append summary_parts
          ("Opportunities: " ++ join ", " (firstn 2 opportunities) ++ ".")
    | [] => summary_parts
    end in
  let context_parts := [] in
  let context_parts :=
    match Dict.get "UNEMPLOYMENT" indicators with
    | Some i =>
        let unemp := EconomicIndicator.latest_value i in
        append context_parts
          ("unemployment at " ++ float_str unemp ++ "%")
    | None => context_parts
    end in
  let context_parts :=
    match Dict.get "INFLATION" indicators with
    | Some i =>
        let infl := EconomicIndicator.change_percent i in
        append context_parts
          ("inflation trend at " ++ float_str infl ++ "%")
    | None => context_parts
    end in
  let context_parts :=
    match Dict.get "FED_FUNDS" indicators with
    | Some i =>
        let fed_rate := EconomicIndicator.latest_value i in
        append context_parts
          ("fed funds rate at " ++ float_str fed_rate ++ "%")
    | None => context_parts
    end in
  let summary_parts :=
    match context_parts with
    | _ :: _ =>
        append summary_parts
          ("Current conditions: " ++ join ", " context_parts ++ ".")
    | [] => summary_parts
    end in
  join " " summary_parts.

(** [analyze_economic_conditions]; [now] is the reading of
    [datetime.now().isoformat()].  The second component is the agent
    after the call. *)
Definition analyze_economic_conditions (self : EconomicIntelligenceAgent)
    (now : string) (indicators : Indicators)
  : AgentInsight.t * EconomicIntelligenceAgent :=
  let overall_score := overall_score indicators in
  let health := health_of overall_score in
  let concerns := _identify_concerns indicators in
  let opportunities := _identify_opportunities indicators in
  let summary := _generate_summary health indicators concerns opportunities in
  (AgentInsight.mk now health concerns opportunities
     (Float.min (overall_score / 10) 1.0) summary,
   self).

(** The body of the [for key, indicator in indicators.items()] loop of
    [check_alerts]. *)
Definition check_alerts_step (current_time : string)
    (alerts : list AlertMessage.t) (item : string * EconomicIndicator.t)
  : list AlertMessage.t :=
  let '(key, indicator) := item in
  let name := EconomicIndicator.name indicator in
  let alerts :=
    if Float.abs (EconomicIndicator.change_percent indicator) >? 10
    then
      let severity :=
        if Float.abs (EconomicIndicator.change_percent indicator) >? 20
        then "critical" else "warning" in
      append alerts
          (AlertMessage.mk severity name
                   (name ++ " changed by "
                      ++ float_str (EconomicIndicator.change_percent indicator) ++ "%")
                   current_time)
    else alerts in
  let alerts :=
    if String.eqb key "UNEMPLOYMENT" && (EconomicIndicator.latest_value indicator >? 7.0)
    then append alerts
           (AlertMessage.mk "critical" name
                      ("Unemployment rate high at "
                         ++ float_str (EconomicIndicator.latest_value indicator) ++ "%")
                      current_time)
    else alerts in
  let alerts :=
    if String.eqb key "INFLATION"
       && (Float.abs (EconomicIndicator.change_percent indicator) >? 6.0)
    then append alerts
           (AlertMessage.mk "warning" name
                      ("High inflation volatility: "
                         ++ float_str (EconomicIndicator.change_percent indicator) ++ "%")
                      current_time)
    else alerts in
  let alerts :=
    if String.eqb key "FED_FUNDS" && (EconomicIndicator.latest_value indicator >? 6.0)
    then append alerts
           (AlertMessage.mk "warning" name
                      ("Federal funds rate elevated at "
                         ++ float_str (EconomicIndicator.latest_value indicator) ++ "%")
                      current_time)
    else alerts in
  let alerts :=
    if String.eqb key "CONSUMER_SENTIMENT"
       && (EconomicIndicator.latest_value indicator <? 60)
    then append alerts
           (AlertMessage.mk "warning" name
                      ("Consumer sentiment low at "
                         ++ float_str (EconomicIndicator.latest_value indicator))
                      current_time)
    else alerts in
  alerts.

(** [check_alerts]; [now] is the one clock reading taken before the loop. *)
Definition check_alerts (self : EconomicIntelligenceAgent)
    (now : string) (indicators : Indicators)
  : list AlertMessage.t * EconomicIntelligenceAgent :=
  let alerts := [] in
  let current_time := now in
  let alerts := fold_left (check_alerts_step current_time) (Dict.items indicators) alerts in
  (alerts, self).

End Formatting.

(** [get_trading_signals] *)
Definition get_trading_signals (self : EconomicIntelligenceAgent)
    (indicators : Indicators) : Dict.t string * EconomicIntelligenceAgent :=
  let signals := Dict.empty in
  let signals :=
    match Dict.get "FED_FUNDS" indicators with
    | Some fed_funds =>
        if String.eqb (EconomicIndicator.trend fed_funds) "up"
        then Dict.set "bonds" "SELL - Rising rates hurt bond prices" signals
        else if String.eqb (EconomicIndicator.trend fed_funds) "down"
        then Dict.set "bonds" "BUY - Falling rates support bond prices" signals
        else Dict.set "bonds" "HOLD - Stable rates" signals
    | None => signals
    end in
  let signals :=
    if Dict.contains "GDP" indicators && Dict.contains "UNEMPLOYMENT" indicators
    then
      match Dict.get "GDP" indicators, Dict.get "UNEMPLOYMENT" indicators with
      | Some gdp, Some unemployment =>
          if (EconomicIndicator.change_percent gdp >? 2.0)
             && (EconomicIndicator.latest_value unemployment <? 5.0)
          then Dict.set "equities" "BUY - Strong growth and employment" signals
          else if (EconomicIndicator.change_percent gdp <? 0)
                  || (EconomicIndicator.latest_value unemployment >? 7.0)
          then Dict.set "equities" "SELL - Weak economic conditions" signals
          else Dict.set "equities" "HOLD - Mixed signals" signals
      | _, _ => signals
      end
    else signals in
  let signals :=
    if Dict.contains "FED_FUNDS" indicators && Dict.contains "GDP" indicators
    then
      match Dict.get "FED_FUNDS" indicators, Dict.get "GDP" indicators with
      | Some fed_funds, Some gdp =>
          if String.eqb (EconomicIndicator.trend fed_funds) "up"
             && (EconomicIndicator.change_percent gdp >? 1.5)
          then Dict.set "dollar" "BUY - Rising rates and growth support USD" signals
          else if String.eqb (EconomicIndicator.trend fed_funds) "down"
                  && (EconomicIndicator.change_percent gdp <? 1.0)
          then Dict.set "dollar" "SELL - Falling rates and weak growth" signals
          else Dict.set "dollar" "HOLD - Neutral conditions" signals
      | _, _ => signals
      end
    else signals in
  (signals, self).

End agent.

(** ** api/indicators.py *)

Module indicators.

(** What a route handler gives the framework: the returned value, or the
    [HTTPException] it raised. *)
Inductive Outcome (A : Type) : Type :=
| Return (a : A)
| HTTPException (status_code : nat) (detail : string).
Arguments Return {A} a.
Arguments HTTPException {A} status_code detail.

(** [get_indicators] *)
Definition get_indicators (economic_data_cache : Dict.t EconomicIndicator.t)
  : Outcome (Dict.t EconomicIndicator.t) :=
  let data := data_fetcher.get_economic_data economic_data_cache in
  match data with
  | [] => HTTPException 503 "Data not available"
  | _ :: _ => Return data
  end.

Section Handlers.

(** Python's [str.upper], on strings as their UTF-8 bytes. *)
Variable upper : string -> string.

(** [get_indicator] *)
Definition get_indicator (economic_data_cache : Dict.t EconomicIndicator.t)
    (indicator_name : string) : Outcome EconomicIndicator.t :=
  let data := data_fetcher.get_economic_data economic_data_cache in
  let indicator_name := upper indicator_name in
  match Dict.get indicator_name data with
  | None => HTTPException 404 ("Indicator " ++ indicator_name ++ " not found")
  | Some indicator => Return indicator
  end.

End Handlers.

End indicators.

(** ** api/insights.py *)

Module insights.
Import indicators.

(** [get_insights]; [intelligence_agent] is the module-level agent, and the
    second component is that agent after the call. *)
Definition get_insights (float_str : Q -> string)
    (intelligence_agent : agent.EconomicIntelligenceAgent) (now : string)
    (economic_data_cache : Dict.t EconomicIndicator.t)
  : Outcome AgentInsight.t * agent.EconomicIntelligenceAgent :=
  let data := data_fetcher.get_economic_data economic_data_cache in
  match data with
  | [] => (HTTPException 503 "Data not available", intelligence_agent)
  | _ :: _ =>
      let '(insights, intelligence_agent) :=
        agent.analyze_economic_conditions float_str intelligence_agent now data in
      (Return insights, intelligence_agent)
  end.

(** [get_alerts] *)
Definition get_alerts (float_str : Q -> string)
    (intelligence_agent : agent.EconomicIntelligenceAgent) (now : string)
    (economic_data_cache : Dict.t EconomicIndicator.t)
  : Outcome (list AlertMessage.t) * agent.EconomicIntelligenceAgent :=
  let data := data_fetcher.get_economic_data economic_data_cache in
  match data with
  | [] => (Return [], intelligence_agent)
  | _ :: _ =>
      let '(alerts, intelligence_agent) :=
        agent.check_alerts float_str intelligence_agent now data in
      (Return alerts, intelligence_agent)
  end.

End insights.

(** ** api/health.py *)

Module health.

(** [health_check]; [now] and [now'] are the two clock readings it takes,
    the second only when there is data. *)
Definition health_check (now now' : string)
    (economic_data_cache : Dict.t EconomicIndicator.t) : HealthCheck.t :=
  let data := data_fetcher.get_economic_data economic_data_cache in
  HealthCheck.mk "healthy" now
    (0 <? length data)%nat
    (match data with _ :: _ => Some now' | [] => None end).

End health.

(** ** main.py *)

Module main.

(** The store after the iterations of the [while True] loop of
    [periodic_update] that have completed, one upstream per iteration; the
    hour of sleep before each refresh changes nothing in the store. *)
Fixpoint periodic_update (float : string -> option Q)
    (iterations : list (string -> data_fetcher.Response))
    (economic_data_cache : Dict.t EconomicIndicator.t)
  : Dict.t EconomicIndicator.t :=
  match iterations with
  | [] => economic_data_cache
  | upstream :: iterations' =>
      periodic_update float iterations'
        (data_fetcher.update_economic_data float upstream economic_data_cache)
  end.

(** The store after [lifespan]'s startup refresh and the completed
    iterations of the periodic task it schedules. *)
Definition lifespan (float : string -> option Q)
    (startup : string -> data_fetcher.Response)
    (iterations : list (string -> data_fetcher.Response))
    (economic_data_cache : Dict.t EconomicIndicator.t)
  : Dict.t EconomicIndicator.t :=
  periodic_update float iterations
    (data_fetcher.update_economic_data float startup economic_data_cache).

End main.

(** * Specification-side notions *)

(** ** The float model against the kernel's binary64 numbers *)

Module KernelFloats.
Import Floats.

#[local] Set Warnings "-inexact-float".

(** The rational a finite kernel float denotes. *)
Definition Q_of_float (f : float) : Q :=
  match Prim2SF f with
  | S754_finite s m e => (if s then -1 else 1) * inject_Z (Z.pos m) * Float.pow2 e
  | _ => 0
  end.

(** On the pair [(a, b)], the three operations of the change percent give
    in the model what the kernel's binary64 operations give. *)
Definition agree (pair : float * float) : bool :=
  let '(a, b) := pair in
  let x := Q_of_float a in
  let y := Q_of_float b in
  Qeq_bool (Q_of_float (a - b)%float) (Float.sub x y)
  && Qeq_bool (Q_of_float ((a - b) / b)%float) (Float.div (Float.sub x y) y)
  && Qeq_bool (Q_of_float ((a - b) / b * 100)%float)
       (Float.mul (Float.div (Float.sub x y) y) 100).

(** A decimal literal denotes in the model what it denotes in the kernel. *)
Definition same_literal (pair : float * Q) : bool :=
  Qeq_bool (Q_of_float (fst pair)) (Float.double (snd pair)).

Definition sample_pairs : list (float * float) :=
  [(20001, 20000); (20003, 20000); (3.1, 3.2); (300.3, 300);
   (8007999999999999, 7999999999999999); (110, 100); (3.9, 4.0);
   (1025.0625, 1024); (1e-310, 3e-310); (-2.5e300, 1e-5)]%float.

Definition sample_literals : list (float * Q) :=
  [(0.1%float, 0.1); (0.01%float, 0.01); (3.13%float, 3.13); (3.1%float, 3.1);
   (300.3%float, 300.3); (1e-310%float, Qpower 10 (-310)); (5.33%float, 5.33)].

End KernelFloats.

(** Half the gap between 1 and the next double: [2^-53]. *)
Definition unit_roundoff : Q := 1 # 9007199254740992.

(** [float] is a Python builtin; closed examples run the code on a finite
    part of its graph, the numerals listed in [table] with the decimal each
    one writes, read as the double nearest to it. *)
Definition float_on (table : list (string * Q)) (s : string) : option Q :=
  option_map Float.double (Dict.get s table).

(** ** Notions used to state the properties of the refresh pipeline *)

Module FetcherSpec.
Import data_fetcher.

(** An exception inside the [try] of [fetch_latest_data]: the HTTP
    exchange raised, or [float] rejected the text of one of the two
    observations read. *)
Definition raises (float : string -> option Q) (r : Response) : Prop :=
  match r with
  | Raised => True
  | Json (Some (latest :: previous :: _)) =>
      value_or_zero float latest = None \/ value_or_zero float previous = None
  | Json _ => False
  end.

(** The payload has no two observations. *)
Definition fewer_than_two (r : Response) : Prop :=
  match r with
  | Raised => False
  | Json (Some (_ :: _ :: _)) => False
  | Json _ => True
  end.


(** The exact result of an operation is within the binary64 range, so the
    operation gives a finite double and not an infinity. *)
Definition in_range (x : Q) : Prop := Qabs x < Float.pow2 1024 - Float.pow2 970.

(** None of the three operations of the change percent overflows. *)
Definition no_overflow (latest previous : Q) : Prop :=
  previous == 0
  \/ (in_range (latest - previous)
      /\ in_range (Float.sub latest previous / previous)
      /\ in_range (Float.div (Float.sub latest previous) previous * 100)).




(** Every configured fetch of one refresh cycle returned [None]. *)
Definition every_fetch_fails (float : string -> option Q)
    (upstream : string -> Response) : Prop :=
  forall key cfg, In (key, cfg) (Dict.items config.CORE_INDICATORS) ->
    fetch_latest_data float (config.series_id cfg) (upstream (config.series_id cfg)) = None.

(** The numerals of four observations around the deadband. *)
Definition deadband_numerals : list (string * Q) :=
  [("1025.0625", 1025.0625); ("1025", 1025); ("1024", 1024);
   ("1022.9375", 1022.9375); ("1023", 1023)].

(** An upstream on which each of the five fetches fails in its own way. *)
Definition failing_upstream (series_id : string) : Response :=
  if String.eqb series_id "GDP" then Raised
  else if String.eqb series_id "UNRATE" then Json None
  else if String.eqb series_id "CPIAUCSL" then Json (Some [])
  else if String.eqb series_id "FEDFUNDS" then Json (Some [mkObs "5.33" "2024-04-01"])
  else Json (Some [mkObs "n/a" "2024-04-01"; mkObs "79.4" "2024-03-01"]).

Definition stored_before : Dict.t EconomicIndicator.t :=
  [("GDP", EconomicIndicator.mk "GDP" "Gross Domestic Product" 110 100 10.0 "2024-01-01" "up")].

End FetcherSpec.

(** ** The alert rules as the specification words them, and timestamps *)

Module AgentSpec.
Import agent.

Definition option_list {A : Type} (o : option A) : list A :=
  match o with Some a => [a] | None => [] end.

(** The swing rule as the specification words it: an alert iff the change
    percent is beyond 10 in absolute value, critical beyond 20. *)
Definition swing_alert (float_str : Q -> string) (now : string)
    (i : EconomicIndicator.t) : option AlertMessage.t :=
  let change := EconomicIndicator.change_percent i in
  if Float.abs change >? 10
  then Some (AlertMessage.mk
               (if Float.abs change >? 20 then "critical" else "warning")
               (EconomicIndicator.name i)
               (EconomicIndicator.name i ++ " changed by " ++ float_str change ++ "%")
               now)
  else None.

(** The threshold rule as the specification words it: one rule per
    indicator key. *)
Definition threshold_alert (float_str : Q -> string) (now : string)
    (key : string) (i : EconomicIndicator.t) : option AlertMessage.t :=
  let value := EconomicIndicator.latest_value i in
  let change := EconomicIndicator.change_percent i in
  let name := EconomicIndicator.name i in
  if String.eqb key "UNEMPLOYMENT" then
    if value >? 7.0
    then Some (AlertMessage.mk "critical" name
                 ("Unemployment rate high at " ++ float_str value ++ "%") now)
    else None
  else if String.eqb key "INFLATION" then
    if Float.abs change >? 6.0
    then Some (AlertMessage.mk "warning" name
                 ("High inflation volatility: " ++ float_str change ++ "%") now)
    else None
  else if String.eqb key "FED_FUNDS" then
    if value >? 6.0
    then Some (AlertMessage.mk "warning" name
                 ("Federal funds rate elevated at " ++ float_str value ++ "%") now)
    else None
  else if String.eqb key "CONSUMER_SENTIMENT" then
    if value <? 60
    then Some (AlertMessage.mk "warning" name
                 ("Consumer sentiment low at " ++ float_str value) now)
    else None
  else None.

(** The alerts of one indicator: the swing alert, then the threshold alert. *)
Definition alerts_of_item (float_str : Q -> string) (now : string)
    (item : string * EconomicIndicator.t) : list AlertMessage.t :=
  (option_list (swing_alert float_str now (snd item))
     ++ option_list (threshold_alert float_str now (fst item) (snd item)))%list.

(** The alert list as the specification words it. *)
Definition expected_alerts (float_str : Q -> string) (now : string)
    (indicators : Indicators) : list AlertMessage.t :=
  flat_map (alerts_of_item float_str now) (Dict.items indicators).

(** The insight [r] with its timestamp replaced. *)
Definition restamp_insight (now : string) (r : AgentInsight.t) : AgentInsight.t :=
  AgentInsight.mk now (AgentInsight.economic_health r) (AgentInsight.key_concerns r)
    (AgentInsight.opportunities r) (AgentInsight.confidence r) (AgentInsight.summary r).

(** The alert [a] with its timestamp replaced. *)
Definition restamp_alert (now : string) (a : AlertMessage.t) : AlertMessage.t :=
  AlertMessage.mk (AlertMessage.severity a) (AlertMessage.indicator a)
    (AlertMessage.message a) now.

(** A snapshot set with one indicator, unemployment at 7.5 after 6.0. *)
Definition unemployment_only : Indicators :=
  [("UNEMPLOYMENT",
    EconomicIndicator.mk "UNRATE" "Unemployment Rate" 7.5 6.0 25.0 "2024-04-01" "up")].

End AgentSpec.

(** ** Lowercase spellings *)

Module QuerySpec.

(** The text is ASCII: every byte is below 128. *)
Fixpoint ascii_text (s : string) : bool :=
  match s with
  | EmptyString => true
  | String c s' => (nat_of_ascii c <? 128)%nat && ascii_text s'
  end.

(** Uppercasing one ASCII character. *)
Definition upper_ascii (c : ascii) : ascii :=
  let n := nat_of_ascii c in
  if (97 <=? n)%nat && (n <=? 122)%nat then ascii_of_nat (n - 32) else c.

(** Uppercasing ASCII text: the letters a to z become A to Z. *)
Fixpoint ascii_upper (s : string) : string :=
  match s with
  | EmptyString => EmptyString
  | String c s' => String (upper_ascii c) (ascii_upper s')
  end.

(** What is known of [str.upper] here: on ASCII text it is the ASCII
    uppercasing.  On other text it follows Unicode and is left open. *)
Definition upper_on_ascii (upper : string -> string) : Prop :=
  forall s, ascii_text s = true -> upper s = ascii_upper s.

(** [str.lower] on one ASCII character. *)
Definition lower_ascii (c : ascii) : ascii :=
  let n := nat_of_ascii c in
  if (65 <=? n)%nat && (n <=? 90)%nat then ascii_of_nat (n + 32) else c.

(** [str.lower] on ASCII text: the lowercase spelling of a key. *)
Fixpoint lower (s : string) : string :=
  match s with
  | EmptyString => EmptyString
  | String c s' => String (lower_ascii c) (lower s')
  end.

End QuerySpec.

(** ** Notions used to state further properties of the code *)

Module ExtraSpec.

(** The fetch of one configured indicator in a refresh cycle. *)
Definition fetched (float : string -> option Q)
    (upstream : string -> data_fetcher.Response) (cfg : config.IndicatorConfig)
  : option data_fetcher.FetchedData :=
  data_fetcher.fetch_latest_data float (config.series_id cfg)
    (upstream (config.series_id cfg)).

(** The snapshot a refresh cycle stores for a configured indicator whose
    fetch gave [data]. *)
Definition indicator_of (cfg : config.IndicatorConfig)
    (data : data_fetcher.FetchedData) : EconomicIndicator.t :=
  EconomicIndicator.mk (data_fetcher.series_id data) (config.name cfg)
    (data_fetcher.latest_value data) (data_fetcher.previous_value data)
    (data_fetcher.change_percent data) (data_fetcher.data_date data)
    (data_fetcher.trend data).

(** The entry of the snapshot set is within every alert rule. *)
Definition quiet (item : string * EconomicIndicator.t) : Prop :=
  let '(key, i) := item in
  Qabs (EconomicIndicator.change_percent i) <= 10
  /\ (key = "UNEMPLOYMENT" -> EconomicIndicator.latest_value i <= 7.0)
  /\ (key = "INFLATION" -> Qabs (EconomicIndicator.change_percent i) <= 6.0)
  /\ (key = "FED_FUNDS" -> EconomicIndicator.latest_value i <= 6.0)
  /\ (key = "CONSUMER_SENTIMENT" -> 60 <= EconomicIndicator.latest_value i).

(** A signal text begins with its advice. *)
Definition advice (signal : string) : Prop :=
  String.prefix "BUY - " signal = true
  \/ String.prefix "SELL - " signal = true
  \/ String.prefix "HOLD - " signal = true.

(** The f-string rendering of floats is a Python builtin; closed examples
    run the code on a finite part of its graph, the floats listed in [table]. *)
Fixpoint float_str_on (table : list (Q * string)) (x : Q) : string :=
  match table with
  | [] => ""
  | (y, s) :: table' => if Qeq_bool x y then s else float_str_on table' x
  end.

End ExtraSpec.

(** * Facts about the float model *)

Module FloatFacts.

Lemma leb_true x y : (x <=? y) = true <-> x <= y.
Proof. apply Qle_bool_iff. Qed.

Lemma leb_false x y : (x <=? y) = false <-> y < x.
Proof.
  unfold Float.leb. split; intro H.
  - apply Qnot_le_lt. intro Hle. apply Qle_bool_iff in Hle. congruence.
  - destruct (Qle_bool x y) eqn:E; [|reflexivity].
    apply Qle_bool_iff in E. apply Qlt_not_le in H. contradiction.
Qed.

Lemma ltb_true x y : (x <? y) = true <-> x < y.
Proof.
  unfold Float.ltb. rewrite negb_true_iff. apply (leb_false y x).
Qed.

Lemma ltb_false x y : (x <? y) = false <-> y <= x.
Proof.
  unfold Float.ltb. rewrite negb_false_iff. apply (leb_true y x).
Qed.

Lemma gtb_true x y : (x >? y) = true <-> y < x.
Proof. apply ltb_true. Qed.

Lemma gtb_false x y : (x >? y) = false <-> x <= y.
Proof. apply ltb_false. Qed.

Lemma geb_true x y : (x >=? y) = true <-> y <= x.
Proof. apply leb_true. Qed.

Lemma geb_false x y : (x >=? y) = false <-> x < y.
Proof. apply leb_false. Qed.



(** Rounding to an integer moves a number by at most one half. *)
Lemma round_half_even_near x :
  inject_Z (Float.round_half_even x) - (1 # 2) <= x
  /\ x <= inject_Z (Float.round_half_even x) + (1 # 2).
Proof.
  unfold Float.round_half_even.
  pose proof (Qfloor_le x) as Hlo.
  pose proof (Qlt_floor x) as Hhi.
  rewrite inject_Z_plus in Hhi. change (inject_Z 1) with 1 in Hhi.
  destruct (x - inject_Z (Qfloor x) ?= 1 # 2) eqn:C.
  - apply Qeq_alt in C.
    destruct (Z.even (Qfloor x)); [|rewrite inject_Z_plus; change (inject_Z 1) with 1]; lra.
  - apply Qlt_alt in C. lra.
  - apply Qgt_alt in C. rewrite inject_Z_plus. change (inject_Z 1) with 1. lra.
Qed.

Lemma integer_above (n k : Z) : inject_Z k - 1 < inject_Z n -> inject_Z k <= inject_Z n.
Proof.
  intro H. rewrite <- Zle_Qle.
  assert (H' : inject_Z (k - 1) < inject_Z n).
  { unfold Zminus. rewrite inject_Z_plus. exact H. }
  rewrite <- Zlt_Qlt in H'. lia.
Qed.

Lemma integer_below (n k : Z) : inject_Z n < inject_Z k + 1 -> inject_Z n <= inject_Z k.
Proof.
  intro H. rewrite <- Zle_Qle.
  assert (H' : inject_Z n < inject_Z (k + 1)).
  { rewrite inject_Z_plus. exact H. }
  rewrite <- Zlt_Qlt in H'. lia.
Qed.

Lemma pow2_pos e : 0 < Float.pow2 e.
Proof. apply Qpower_0_lt. reflexivity. Qed.

Lemma pow2_plus a b : Float.pow2 (a + b) == Float.pow2 a * Float.pow2 b.
Proof. apply Qpower_plus. discriminate. Qed.

Lemma pow2_Z n : (0 <= n)%Z -> Float.pow2 n == inject_Z (2 ^ n).
Proof. intro H. unfold Float.pow2. rewrite (Zpower_Qpower 2 n H). reflexivity. Qed.

(** The power of two [Float.ilog2] finds is not above its argument. *)
Lemma ilog2_le x : 0 < x -> Float.pow2 (Float.ilog2 x) <= x.
Proof.
  intro Hx. unfold Float.ilog2.
  destruct (Qle_bool (Float.pow2 (Z.log2 (Qnum x) - Z.log2 (Z.pos (Qden x)))) x) eqn:T;
    [apply Qle_bool_iff; exact T|].
  destruct x as [n d]. cbn [Qnum Qden].
  assert (Hn : (0 < n)%Z).
  { unfold Qlt in Hx. cbn in Hx. lia. }
  set (a := Z.log2 n). set (b := Z.log2 (Z.pos d)).
  assert (Ha : (0 <= a)%Z) by apply Z.log2_nonneg.
  assert (Hb : (0 <= b)%Z) by apply Z.log2_nonneg.
  destruct (Z.log2_spec n Hn) as [Hlo _]. fold a in Hlo.
  destruct (Z.log2_spec (Z.pos d) eq_refl) as [_ Hhi]. fold b in Hhi.
  replace (a - b - 1)%Z with (a + - (b + 1))%Z by lia.
  rewrite pow2_plus. unfold Float.pow2 at 2. rewrite Qpower_opp. fold (Float.pow2 (b + 1)).
  rewrite (pow2_Z a Ha), (pow2_Z (b + 1)) by lia.
  assert (HB : (0 < 2 ^ (b + 1))%Z) by (apply Z.pow_pos_nonneg; lia).
  replace (Z.succ b) with (b + 1)%Z in Hhi by lia.
  apply Qle_shift_div_r; [change 0 with (inject_Z 0); rewrite <- Zlt_Qlt; exact HB|].
  unfold Qle, Qmult, inject_Z. cbn [Qnum Qden].
  rewrite !Z.mul_1_r. rewrite Pos.mul_1_r.
  assert (HA : (0 < 2 ^ a)%Z) by (apply Z.pow_pos_nonneg; lia).
  nia.
Qed.

Lemma double_value x :
  ~ x == 0 ->
  Float.double x
  == inject_Z (Float.round_half_even (Qred x / Float.pow2 (Float.exponent (Qred x))))
     * Float.pow2 (Float.exponent (Qred x)).
Proof.
  intro Hx. unfold Float.double. cbv zeta.
  destruct (Qeq_bool (Qred x) 0) eqn:E.
  - apply Qeq_bool_iff in E. rewrite Qred_correct in E. contradiction.
  - apply Qred_correct.
Qed.

Lemma double_zero x : x == 0 -> Float.double x = 0.
Proof.
  intro Hx. unfold Float.double. cbv zeta.
  assert (E : Qeq_bool (Qred x) 0 = true)
    by (apply Qeq_bool_iff; rewrite Qred_correct; exact Hx).
  rewrite E. reflexivity.
Qed.


#[export] Instance round_half_even_comp : Proper (Qeq ==> eq) Float.round_half_even.
Proof.
  intros x y E. unfold Float.round_half_even.
  rewrite (Qfloor_comp _ _ E).
  assert (C : (x - inject_Z (Qfloor y) ?= 1 # 2) = (y - inject_Z (Qfloor y) ?= 1 # 2))
    by (rewrite E; reflexivity).
  rewrite C. reflexivity.
Qed.

#[export] Instance round_comp : Proper (Qeq ==> eq ==> eq) Float.round.
Proof.
  intros x y E n m <-. unfold Float.round.
  assert (R : Float.round_half_even (x * inject_Z (10 ^ Z.of_nat n))
              = Float.round_half_even (y * inject_Z (10 ^ Z.of_nat n)))
    by (apply round_half_even_comp; rewrite E; reflexivity).
  rewrite R. reflexivity.
Qed.

(** The result of an operation is within half a unit in the last place of
    its exact result. *)
Lemma double_near x :
  ~ x == 0 ->
  x - Float.pow2 (Float.exponent (Qred x)) * (1 # 2) <= Float.double x
  /\ Float.double x <= x + Float.pow2 (Float.exponent (Qred x)) * (1 # 2).
Proof.
  intro Hx. rewrite (double_value x Hx).
  set (P := Float.pow2 (Float.exponent (Qred x))).
  assert (HP : 0 < P) by apply pow2_pos.
  destruct (round_half_even_near (Qred x / P)) as [Hlo Hhi].
  set (m := inject_Z (Float.round_half_even (Qred x / P))) in *.
  assert (E : Qred x / P * P == x).
  { rewrite Qred_correct. field. lra. }
  assert (H1 : (m - (1 # 2)) * P <= Qred x / P * P).
  { apply Qmult_le_compat_r; lra. }
  assert (H2 : Qred x / P * P <= (m + (1 # 2)) * P).
  { apply Qmult_le_compat_r; lra. }
  rewrite E in H1, H2. split; lra.
Qed.

(** Away from the subnormal range the error of an operation is at most
    [2^-53] of its exact result. *)
Lemma double_relative x :
  Float.pow2 (-1022) <= Qabs x ->
  x - Qabs x * unit_roundoff <= Float.double x <= x + Qabs x * unit_roundoff.
Proof.
  intro Hx.
  assert (Hmin : 0 < Float.pow2 (-1022)) by apply pow2_pos.
  assert (Hnz : ~ x == 0).
  { intro E. rewrite E in Hx. change (Qabs 0) with 0 in Hx. lra. }
  destruct (double_near x Hnz) as [Hlo Hhi].
  assert (Hhalf : Float.pow2 (Float.exponent (Qred x)) * (1 # 2) <= Qabs x * unit_roundoff).
  { unfold Float.exponent.
    assert (Ex : Qabs (Qred x) == Qabs x) by (rewrite Qred_correct; reflexivity).
    assert (Hpos : 0 < Qabs (Qred x)) by (rewrite Ex; lra).
    pose proof (ilog2_le _ Hpos) as Hk0.
    set (k := Float.ilog2 (Qabs (Qred x))) in *.
    assert (Hk : Float.pow2 k <= Qabs x) by lra.
    destruct (Z.max_spec (k - 52) (-1074)) as [[_ ->]|[_ ->]].
    - change (Float.pow2 (-1074) * (1 # 2)) with (Float.pow2 (-1074) * Float.pow2 (-1)).
      rewrite <- pow2_plus.
      change (-1074 + -1)%Z with (-1022 + -53)%Z. rewrite pow2_plus.
      change (Float.pow2 (-53)) with unit_roundoff.
      apply Qmult_le_compat_r; [exact Hx|discriminate].
    - change (1 # 2) with (Float.pow2 (-1)). rewrite <- pow2_plus.
      replace (k - 52 + -1)%Z with (k + -53)%Z by lia. rewrite pow2_plus.
      change (Float.pow2 (-53)) with unit_roundoff.
      apply Qmult_le_compat_r; [exact Hk|discriminate]. }
  split; lra.
Qed.

(** An operation never changes the sign of its exact result. *)
Lemma double_sign x :
  (0 <= x -> 0 <= Float.double x) /\ (x <= 0 -> Float.double x <= 0).
Proof.
  destruct (Qeq_dec x 0) as [E|Hnz].
  - rewrite (double_zero x E). split; intro; lra.
  - rewrite (double_value x Hnz).
    set (P := Float.pow2 (Float.exponent (Qred x))).
    assert (HP : 0 < P) by apply pow2_pos.
    destruct (round_half_even_near (Qred x / P)) as [Hlo Hhi].
    set (m := Float.round_half_even (Qred x / P)) in *.
    assert (E : Qred x / P * P == x) by (rewrite Qred_correct; field; lra).
    split; intro Hx.
    + assert (Hq : 0 <= Qred x / P).
      { apply Qle_shift_div_l; [exact HP|]. rewrite Qred_correct. lra. }
      assert (Hm : inject_Z 0 <= inject_Z m).
      { apply integer_above. change (inject_Z 0) with 0. lra. }
      change (inject_Z 0) with 0 in Hm.
      apply Qmult_le_0_compat; lra.
    + assert (Hq : Qred x / P <= 0).
      { apply Qle_shift_div_r; [exact HP|]. rewrite Qred_correct. lra. }
      assert (Hm : inject_Z m <= inject_Z 0).
      { apply integer_below. change (inject_Z 0) with 0. lra. }
      change (inject_Z 0) with 0 in Hm.
      assert (H0 : 0 <= (- inject_Z m) * P) by (apply Qmult_le_0_compat; lra).
      lra.
Qed.

(** The double that the literal [0.1] denotes. *)
Lemma tenth_value : Float.double 0.1 = 3602879701896397 # 36028797018963968.
Proof. vm_compute. reflexivity. Qed.

Lemma round2_hundredths x :
  Float.round x 2 = Float.double (inject_Z (Float.round_half_even (x * 100)) / 100).
Proof. reflexivity. Qed.

(** The doubles of the hundredths around one tenth, in order. *)
Lemma hundredths_above n :
  ((n <= 9)%Z -> Float.double (inject_Z n / 100) < Float.double 0.1)
  /\ (n = 10%Z -> Float.double (inject_Z n / 100) = Float.double 0.1)
  /\ ((11 <= n)%Z -> Float.double 0.1 < Float.double (inject_Z n / 100)).
Proof.
  rewrite tenth_value. split; [|split].
  - intro Hn. destruct (Z_le_gt_dec n 0) as [H0|H0].
    + assert (Hx : inject_Z n / 100 <= 0).
      { rewrite Zle_Qle in H0. change (inject_Z 0) with 0 in H0.
        unfold Qdiv. change (/ 100) with (1 # 100). lra. }
      apply (proj2 (double_sign _)) in Hx.
      eapply Qle_lt_trans; [exact Hx|reflexivity].
    + assert (H1 : inject_Z 1 <= inject_Z n) by (rewrite <- Zle_Qle; lia).
      assert (H9 : inject_Z n <= inject_Z 9) by (rewrite <- Zle_Qle; lia).
      change (inject_Z 1) with 1 in H1. change (inject_Z 9) with 9 in H9.
      set (r := inject_Z n / 100).
      assert (Hr : (1 # 100) <= r <= (9 # 100)).
      { unfold r, Qdiv. change (/ 100) with (1 # 100). split; lra. }
      assert (Habs : Qabs r == r) by (apply Qabs_pos; lra).
      assert (Hnormal : Float.pow2 (-1022) <= Qabs r).
      { rewrite Habs. apply Qle_trans with (1 # 100); [|lra]. vm_compute. discriminate. }
      destruct (double_relative r Hnormal) as [_ Hhi]. rewrite Habs in Hhi.
      unfold unit_roundoff in Hhi. lra.
  - intros ->. vm_compute. reflexivity.
  - intro Hn.
    assert (H11 : inject_Z 11 <= inject_Z n) by (rewrite <- Zle_Qle; lia).
    change (inject_Z 11) with 11 in H11.
    set (r := inject_Z n / 100).
    assert (Hr : (11 # 100) <= r).
    { unfold r, Qdiv. change (/ 100) with (1 # 100). lra. }
    assert (Habs : Qabs r == r) by (apply Qabs_pos; lra).
    assert (Hnormal : Float.pow2 (-1022) <= Qabs r).
    { rewrite Habs. apply Qle_trans with (11 # 100); [|lra]. vm_compute. discriminate. }
    destruct (double_relative r Hnormal) as [Hlo _]. rewrite Habs in Hlo.
    unfold unit_roundoff in Hlo. lra.
Qed.

Lemma hundredths_below n :
  ((-9 <= n)%Z -> - Float.double 0.1 < Float.double (inject_Z n / 100))
  /\ (n = (-10)%Z -> Float.double (inject_Z n / 100) = - Float.double 0.1)
  /\ ((n <= -11)%Z -> Float.double (inject_Z n / 100) < - Float.double 0.1).
Proof.
  rewrite tenth_value. split; [|split].
  - intro Hn. destruct (Z_le_gt_dec 0 n) as [H0|H0].
    + assert (Hx : 0 <= inject_Z n / 100).
      { rewrite Zle_Qle in H0. change (inject_Z 0) with 0 in H0.
        unfold Qdiv. change (/ 100) with (1 # 100). lra. }
      apply (proj1 (double_sign _)) in Hx.
      eapply Qlt_le_trans; [|exact Hx]. reflexivity.
    + assert (H1 : inject_Z n <= inject_Z (-1)) by (rewrite <- Zle_Qle; lia).
      assert (H9 : inject_Z (-9) <= inject_Z n) by (rewrite <- Zle_Qle; lia).
      change (inject_Z (-1)) with (-1) in H1. change (inject_Z (-9)) with (-9) in H9.
      set (r := inject_Z n / 100).
      assert (Hr : - (9 # 100) <= r <= - (1 # 100)).
      { unfold r, Qdiv. change (/ 100) with (1 # 100). split; lra. }
      assert (Habs : Qabs r == - r) by (apply Qabs_neg; lra).
      assert (Hnormal : Float.pow2 (-1022) <= Qabs r).
      { rewrite Habs. apply Qle_trans with (1 # 100); [|lra]. vm_compute. discriminate. }
      destruct (double_relative r Hnormal) as [Hlo _]. rewrite Habs in Hlo.
      unfold unit_roundoff in Hlo. lra.
  - intros ->. vm_compute. reflexivity.
  - intro Hn.
    assert (H11 : inject_Z n <= inject_Z (-11)) by (rewrite <- Zle_Qle; lia).
    change (inject_Z (-11)) with (-11) in H11.
    set (r := inject_Z n / 100).
    assert (Hr : r <= - (11 # 100)).
    { unfold r, Qdiv. change (/ 100) with (1 # 100). lra. }
    assert (Habs : Qabs r == - r) by (apply Qabs_neg; lra).
    assert (Hnormal : Float.pow2 (-1022) <= Qabs r).
    { rewrite Habs. apply Qle_trans with (11 # 100); [|lra]. vm_compute. discriminate. }
    destruct (double_relative r Hnormal) as [_ Hhi]. rewrite Habs in Hhi.
    unfold unit_roundoff in Hhi. lra.
Qed.

(** A value that rounds, at two decimals, above the double 0.1 was above
    it, and a value above it rounds to at least it; likewise below the
    double -0.1. *)
Lemma round2_sides x :
  (Float.round x 2 > Float.double 0.1 -> x > Float.double 0.1)
  /\ (Float.round x 2 < - Float.double 0.1 -> x < - Float.double 0.1)
  /\ (x > Float.double 0.1 -> Float.round x 2 >= Float.double 0.1)
  /\ (x < - Float.double 0.1 -> Float.round x 2 <= - Float.double 0.1)
  /\ (x <= Float.double 0.1 -> Float.round x 2 <= Float.double 0.1)
  /\ (- Float.double 0.1 <= x -> - Float.double 0.1 <= Float.round x 2).
Proof.
  rewrite round2_hundredths.
  destruct (round_half_even_near (x * 100)) as [Hlo Hhi].
  set (n := Float.round_half_even (x * 100)) in *.
  destruct (hundredths_above n) as (A9 & A10 & A11).
  destruct (hundredths_below n) as (B9 & B10 & B11).
  assert (T : Float.double 0.1 = 3602879701896397 # 36028797018963968) by apply tenth_value.
  repeat split; intro H.
  - destruct (Z_le_gt_dec n 10) as [Hn|Hn].
    + exfalso. destruct (Z_le_gt_dec n 9) as [Hn9|Hn9].
      * specialize (A9 Hn9). lra.
      * assert (E : n = 10%Z) by lia. rewrite (A10 E) in H. lra.
    + assert (Hq : inject_Z 11 <= inject_Z n) by (rewrite <- Zle_Qle; lia).
      change (inject_Z 11) with 11 in Hq. rewrite T. lra.
  - destruct (Z_le_gt_dec (-10) n) as [Hn|Hn].
    + exfalso. destruct (Z_le_gt_dec (-9) n) as [Hn9|Hn9].
      * specialize (B9 Hn9). lra.
      * assert (E : n = (-10)%Z) by lia. rewrite (B10 E) in H. lra.
    + assert (Hq : inject_Z n <= inject_Z (-11)) by (rewrite <- Zle_Qle; lia).
      change (inject_Z (-11)) with (-11) in Hq. rewrite T. lra.
  - rewrite T in H.
    assert (Hq : inject_Z 10 <= inject_Z n).
    { apply integer_above. change (inject_Z 10) with 10. lra. }
    rewrite <- Zle_Qle in Hq.
    destruct (Z_le_gt_dec n 10) as [Hn|Hn].
    + assert (E : n = 10%Z) by lia. rewrite (A10 E). lra.
    + assert (Hn11 : (11 <= n)%Z) by lia. specialize (A11 Hn11). lra.
  - rewrite T in H.
    assert (Hq : inject_Z n <= inject_Z (-10)).
    { apply integer_below. change (inject_Z (-10)) with (-10). lra. }
    rewrite <- Zle_Qle in Hq.
    destruct (Z_le_gt_dec (-10) n) as [Hn|Hn].
    + assert (E : n = (-10)%Z) by lia. rewrite (B10 E). lra.
    + assert (Hn11 : (n <= -11)%Z) by lia. specialize (B11 Hn11). lra.
  - rewrite T in H.
    assert (Hq : inject_Z n <= inject_Z 10).
    { apply integer_below. change (inject_Z 10) with 10. lra. }
    rewrite <- Zle_Qle in Hq.
    destruct (Z_le_gt_dec n 9) as [Hn|Hn].
    + specialize (A9 Hn). lra.
    + assert (E : n = 10%Z) by lia. rewrite (A10 E). lra.
  - rewrite T in H.
    assert (Hq : inject_Z (-10) <= inject_Z n).
    { apply integer_above. change (inject_Z (-10)) with (-10). lra. }
    rewrite <- Zle_Qle in Hq.
    destruct (Z_le_gt_dec (-9) n) as [Hn|Hn].
    + specialize (B9 Hn). lra.
    + assert (E : n = (-10)%Z) by lia. rewrite (B10 E). lra.
Qed.

(** On sample inputs, among them subnormal and very large ones, the
    operations of the model are those of the kernel's binary64 numbers. *)
Lemma model_agrees_with_kernel :
  forallb KernelFloats.agree KernelFloats.sample_pairs = true
  /\ forallb KernelFloats.same_literal KernelFloats.sample_literals = true.
Proof. split; vm_compute; reflexivity. Qed.

End FloatFacts.

(** * The refresh pipeline *)

Module FetcherProofs.
Import data_fetcher FetcherSpec.









Lemma fetch_two_observations float sid latest previous rest l p :
  value_or_zero float latest = Some l ->
  value_or_zero float previous = Some p ->
  fetch_latest_data float sid (Json (Some (latest :: previous :: rest)))
  = Some (mkData sid l p (Float.round (raw_change_percent l p) 2) (date latest)
            (trend_of (raw_change_percent l p))).
Proof.
  intros Hl Hp. simpl. rewrite Hl, Hp. reflexivity.
Qed.

Lemma fetch_some_inv float sid r data :
  fetch_latest_data float sid r = Some data ->
  change_percent data
  = Float.round (raw_change_percent (latest_value data) (previous_value data)) 2
  /\ trend data = trend_of (raw_change_percent (latest_value data) (previous_value data)).
Proof.
  destruct r as [|[[|latest [|previous rest]]|]]; simpl; try discriminate.
  destruct (value_or_zero float latest); [|discriminate].
  destruct (value_or_zero float previous); [|discriminate].
  intros [= <-]. simpl. split; reflexivity.
Qed.

Lemma trend_of_cases p :
  (trend_of p = "up" <-> p > Float.double 0.1)
  /\ (trend_of p = "down" <-> p < - Float.double 0.1)
  /\ (trend_of p = "stable" <-> ~ p > Float.double 0.1 /\ ~ p < - Float.double 0.1).
Proof.
  unfold trend_of. rewrite FloatFacts.tenth_value.
  destruct (p >? 3602879701896397 # 36028797018963968) eqn:Eu.
  - apply FloatFacts.gtb_true in Eu.
    repeat split; try discriminate; intros; try lra; try tauto.
  - apply FloatFacts.gtb_false in Eu.
    destruct (p <? - (3602879701896397 # 36028797018963968)) eqn:Ed.
    + apply FloatFacts.ltb_true in Ed.
      repeat split; try discriminate; intros; try lra; try tauto.
    + apply FloatFacts.ltb_false in Ed.
      repeat split; try discriminate; intros; try lra.
Qed.



(** C4, as stated, fails: 1025.0625 after 1024 is a change of 0.103759765625
    percent, stored as 0.1 and trending up, while 1025 after 1024 is a
    change of 0.09765625 percent, stored as 0.1 too and stable.  All the
    operations involved are exact in binary64. *)
Lemma trend_not_a_function_of_stored_change :
  exists rising flat,
    fetch_latest_data (float_on [("1025.0625", 1025.0625); ("1025", 1025); ("1024", 1024)]) "GDP"
      (Json (Some [mkObs "1025.0625" "2024-04-01"; mkObs "1024" "2024-01-01"])) = Some rising
    /\ fetch_latest_data (float_on [("1025.0625", 1025.0625); ("1025", 1025); ("1024", 1024)]) "GDP"
         (Json (Some [mkObs "1025" "2024-04-01"; mkObs "1024" "2024-01-01"])) = Some flat
    /\ change_percent rising = Float.double 0.1
    /\ change_percent flat = Float.double 0.1
    /\ trend rising = "up"
    /\ trend flat = "stable"
    /\ ~ (trend rising = "up" <-> change_percent rising > Float.double 0.1).
Proof.
  do 2 eexists. split; [vm_compute; reflexivity|]. split; [vm_compute; reflexivity|].
  cbn [change_percent trend].
  split; [vm_compute; reflexivity|]. split; [vm_compute; reflexivity|].
  split; [vm_compute; reflexivity|]. split; [vm_compute; reflexivity|].
  intros [H _].
  assert (T : trend_of (raw_change_percent (Float.double 1025.0625) (Float.double 1024))
              = "up") by (vm_compute; reflexivity).
  specialize (H T). revert H. vm_compute. intro H; discriminate H.
Qed.

(** C4, amended.  The trend of a fetched record is the deadband applied to
    the change percent before rounding, against the double 0.1; the stored
    change percent is that value rounded to two decimals.  A stored value
    above 0.1 goes with up and one below -0.1 with down, while a stored 0.1
    goes with up or with stable and a stored -0.1 with down or with
    stable. *)
Theorem trend_from_unrounded_change :
  (forall float sid r data,
      fetch_latest_data float sid r = Some data ->
      no_overflow (latest_value data) (previous_value data) ->
      let p := raw_change_percent (latest_value data) (previous_value data) in
      change_percent data = Float.round p 2
      /\ (trend data = "up" <-> p > Float.double 0.1)
      /\ (trend data = "down" <-> p < - Float.double 0.1)
      /\ (trend data = "stable" <-> ~ p > Float.double 0.1 /\ ~ p < - Float.double 0.1)
      /\ (change_percent data > Float.double 0.1 -> trend data = "up")
      /\ (change_percent data < - Float.double 0.1 -> trend data = "down"))
  /\ (exists rising flat falling level,
        fetch_latest_data (float_on deadband_numerals) "GDP"
          (Json (Some [mkObs "1025.0625" "2024-04-01"; mkObs "1024" "2024-01-01"]))
        = Some rising
        /\ fetch_latest_data (float_on deadband_numerals) "GDP"
             (Json (Some [mkObs "1025" "2024-04-01"; mkObs "1024" "2024-01-01"]))
           = Some flat
        /\ fetch_latest_data (float_on deadband_numerals) "GDP"
             (Json (Some [mkObs "1022.9375" "2024-04-01"; mkObs "1024" "2024-01-01"]))
           = Some falling
        /\ fetch_latest_data (float_on deadband_numerals) "GDP"
             (Json (Some [mkObs "1023" "2024-04-01"; mkObs "1024" "2024-01-01"]))
           = Some level
        /\ change_percent rising = Float.double 0.1 /\ trend rising = "up"
        /\ change_percent flat = Float.double 0.1 /\ trend flat = "stable"
        /\ change_percent falling = - Float.double 0.1 /\ trend falling = "down"
        /\ change_percent level = - Float.double 0.1 /\ trend level = "stable").
Proof.
  split.
  - intros float sid r data H _ p.
    destruct (fetch_some_inv _ _ _ _ H) as [Hc Ht]. fold p in Hc, Ht.
    destruct (trend_of_cases p) as (Hu & Hd & Hs).
    destruct (FloatFacts.round2_sides p) as (Ru & Rd & _).
    rewrite Ht, Hc. repeat split; tauto.
  - do 4 eexists.
    split; [vm_compute; reflexivity|]. split; [vm_compute; reflexivity|].
    split; [vm_compute; reflexivity|]. split; [vm_compute; reflexivity|].
    cbn [change_percent trend]. repeat split; vm_compute; reflexivity.
Qed.

Lemma trend_from_unrounded_change_witness :
  let data := mkData "GDP" (Float.double 1025.0625) (Float.double 1024)
                (Float.round (raw_change_percent (Float.double 1025.0625)
                                (Float.double 1024)) 2) "2024-04-01" "up" in
  let p := raw_change_percent (latest_value data) (previous_value data) in
  change_percent data = Float.round p 2
  /\ (trend data = "up" <-> p > Float.double 0.1)
  /\ (trend data = "down" <-> p < - Float.double 0.1)
  /\ (trend data = "stable" <-> ~ p > Float.double 0.1 /\ ~ p < - Float.double 0.1)
  /\ (change_percent data > Float.double 0.1 -> trend data = "up")
  /\ (change_percent data < - Float.double 0.1 -> trend data = "down").
Proof.
  apply (proj1 trend_from_unrounded_change
           (float_on [("1025.0625", 1025.0625); ("1024", 1024)]) "GDP"
           (Json (Some [mkObs "1025.0625" "2024-04-01"; mkObs "1024" "2024-01-01"]))).
  - vm_compute. reflexivity.
  - right. repeat split; vm_compute; reflexivity.
Defined.

Lemma fetch_none_iff float sid r :
  fetch_latest_data float sid r = None <-> raises float r \/ fewer_than_two r.
Proof.
  destruct r as [|[[|latest [|previous rest]]|]]; simpl; try tauto.
  destruct (value_or_zero float latest) as [l|];
    destruct (value_or_zero float previous) as [p|]; split;
    try discriminate; try tauto; intros [[H|H]|[]]; discriminate H.
Qed.

(** C9.  A fetch returns a record unless an exception was raised or the
    payload has fewer than two observations.  A ["."] previous value is
    read as 0 and gives change percent 0 and trend stable; a ["."] latest
    value gives latest value 0. *)
Theorem fetch_populated_unless_failed float sid :
  (forall r, fetch_latest_data float sid r = None <-> raises float r \/ fewer_than_two r)
  /\ (forall latest previous rest l,
        value previous = "." -> value_or_zero float latest = Some l ->
        exists data,
          fetch_latest_data float sid (Json (Some (latest :: previous :: rest))) = Some data
          /\ latest_value data = l
          /\ previous_value data = 0
          /\ change_percent data == 0
          /\ trend data = "stable")
  /\ (forall latest previous rest p,
        value latest = "." -> value_or_zero float previous = Some p ->
        exists data,
          fetch_latest_data float sid (Json (Some (latest :: previous :: rest))) = Some data
          /\ latest_value data = 0
          /\ previous_value data = p)
  /\ (forall latest previous rest,
        value latest = "." -> value previous = "." ->
        fetch_latest_data float sid (Json (Some (latest :: previous :: rest)))
        = Some (mkData sid 0 0 (Float.round 0 2) (date latest) "stable")).
Proof.
  split; [intro r; apply fetch_none_iff|].
  assert (Hdot : forall o, value o = "." -> value_or_zero float o = Some 0).
  { intros o E. unfold value_or_zero. rewrite E. reflexivity. }
  repeat split.
  - intros latest previous rest l Ep Hl.
    eexists. split; [apply (fetch_two_observations _ _ _ _ _ _ _ Hl (Hdot _ Ep))|].
    simpl. repeat split; reflexivity.
  - intros latest previous rest p El Hp.
    eexists. split; [apply (fetch_two_observations _ _ _ _ _ _ _ (Hdot _ El) Hp)|].
    simpl. split; reflexivity.
  - intros latest previous rest El Ep.
    rewrite (fetch_two_observations _ _ _ _ _ _ _ (Hdot _ El) (Hdot _ Ep)). reflexivity.
Qed.

Lemma failed_steps_keep float upstream l acc :
  (forall key cfg, In (key, cfg) l ->
     fetch_latest_data float (config.series_id cfg) (upstream (config.series_id cfg)) = None) ->
  fold_left (update_step float upstream) l acc = acc.
Proof.
  revert acc. induction l as [|[key cfg] l IH]; intros acc H; simpl; [reflexivity|].
  rewrite (H key cfg (or_introl eq_refl)).
  apply IH. intros k c Hin. apply (H k c). right. exact Hin.
Qed.

Lemma failing_upstream_fails :
  every_fetch_fails (float_on [("5.33", 5.33); ("79.4", 79.4)]) failing_upstream.
Proof.
  intros key cfg Hin. simpl in Hin.
  repeat (destruct Hin as [[= <- <-]|Hin]; [reflexivity|]). destruct Hin.
Qed.

(** C2, as stated, fails: after a cycle whose every fetch failed the store
    is empty, whatever it held before. *)
Lemma failed_cycle_drops_previous_set :
  every_fetch_fails (float_on [("5.33", 5.33); ("79.4", 79.4)]) failing_upstream
  /\ update_economic_data (float_on [("5.33", 5.33); ("79.4", 79.4)])
       failing_upstream stored_before = []
  /\ update_economic_data (float_on [("5.33", 5.33); ("79.4", 79.4)])
       failing_upstream stored_before <> stored_before.
Proof.
  split; [exact failing_upstream_fails|].
  split; [reflexivity|]. discriminate.
Qed.

(** C2, amended.  A refresh cycle whose every fetch fails replaces the
    stored snapshot set by the empty one; the store is unchanged by it
    exactly when it was empty before. *)
Theorem failed_cycle_empties_store float upstream economic_data_cache :
  every_fetch_fails float upstream ->
  update_economic_data float upstream economic_data_cache = Dict.empty
  /\ (update_economic_data float upstream economic_data_cache = economic_data_cache
      <-> economic_data_cache = Dict.empty).
Proof.
  intro H.
  assert (E : update_economic_data float upstream economic_data_cache = Dict.empty).
  { unfold update_economic_data. apply failed_steps_keep. exact H. }
  split; [exact E|]. rewrite E. split; intro; congruence.
Qed.

Lemma failed_cycle_empties_store_witness :
  update_economic_data (float_on [("5.33", 5.33); ("79.4", 79.4)])
    failing_upstream stored_before = Dict.empty
  /\ (update_economic_data (float_on [("5.33", 5.33); ("79.4", 79.4)])
        failing_upstream stored_before = stored_before
      <-> stored_before = Dict.empty).
Proof.
  apply (failed_cycle_empties_store (float_on [("5.33", 5.33); ("79.4", 79.4)])
           failing_upstream stored_before).
  intros key cfg Hin. simpl in Hin.
  repeat (destruct Hin as [[= <- <-]|Hin]; [reflexivity|]). destruct Hin.
Defined.

End FetcherProofs.

(** * The rule engine *)

Module DictFacts.
Section WithValue.
Context {V : Type}.

Lemma get_set (k k' : string) (v : V) (d : Dict.t V) :
  Dict.get k (Dict.set k' v d) = if String.eqb k k' then Some v else Dict.get k d.
Proof.
  induction d as [|[k0 v0] d IH]; simpl.
  - reflexivity.
  - destruct (String.eqb k' k0) eqn:E'; simpl.
    + apply String.eqb_eq in E'. subst k0.
      destruct (String.eqb k k'); reflexivity.
    + rewrite IH. destruct (String.eqb k k0) eqn:E; [|reflexivity].
      apply String.eqb_eq in E. subst k0.
      rewrite String.eqb_sym in E'. rewrite E'. reflexivity.
Qed.

Lemma contains_keys (k : string) (d : Dict.t V) :
  Dict.contains k d = true <-> In k (Dict.keys d).
Proof.
  unfold Dict.contains, Dict.keys.
  induction d as [|[k0 v0] d IH]; simpl.
  - split; [discriminate|tauto].
  - destruct (String.eqb k k0) eqn:E.
    + apply String.eqb_eq in E. subst. tauto.
    + apply String.eqb_neq in E. split.
      * intro H. right. apply IH. exact H.
      * intros [H|H]; [congruence|]. apply IH. exact H.
Qed.

End WithValue.
End DictFacts.

Module AgentProofs.
Import agent AgentSpec.

Ltac order_facts :=
  repeat match goal with
    | H : (_ <=? _) = true |- _ => apply FloatFacts.leb_true in H
    | H : (_ <=? _) = false |- _ => apply FloatFacts.leb_false in H
    | H : (_ <? _) = true |- _ => apply FloatFacts.ltb_true in H
    | H : (_ <? _) = false |- _ => apply FloatFacts.ltb_false in H
    | H : (_ >? _) = true |- _ => apply FloatFacts.gtb_true in H
    | H : (_ >? _) = false |- _ => apply FloatFacts.gtb_false in H
    | H : (_ >=? _) = true |- _ => apply FloatFacts.geb_true in H
    | H : (_ >=? _) = false |- _ => apply FloatFacts.geb_false in H
    end.

(** Split on the condition of an [if] of the goal. *)
Ltac case_bool :=
  match goal with
  | |- context [if ?b then _ else _] =>
      lazymatch type of b with bool => destruct b end
  end.

(** The employment score as a function of the rate alone. *)
Lemma score_employment_steps u :
  let rate := EconomicIndicator.latest_value u in
  _score_employment (Some u)
  = Some (if rate <=? 3.5 then 10.0 else if rate <=? 4.5 then 8.0
          else if rate <=? 6.0 then 6.0 else if rate <=? 8.0 then 4.0 else 2.0).
Proof.
  simpl.
  repeat case_bool; reflexivity.
Qed.

(** C7.  The employment score never rises with the unemployment rate, and
    takes the values 10 at 3.5, 8 at 3.6 and 2 at 8.1. *)
Theorem score_employment_monotone :
  (forall u1 u2,
      EconomicIndicator.latest_value u1 <= EconomicIndicator.latest_value u2 ->
      exists s1 s2,
        _score_employment (Some u1) = Some s1
        /\ _score_employment (Some u2) = Some s2
        /\ s2 <= s1)
  /\ (forall u, EconomicIndicator.latest_value u == 3.5 ->
                _score_employment (Some u) = Some 10.0)
  /\ (forall u, EconomicIndicator.latest_value u == 3.6 ->
                _score_employment (Some u) = Some 8.0)
  /\ (forall u, EconomicIndicator.latest_value u == 8.1 ->
                _score_employment (Some u) = Some 2.0).
Proof.
  repeat split.
  - intros u1 u2 Hle. do 2 eexists.
    split; [apply score_employment_steps|]. split; [apply score_employment_steps|].
    cbv zeta.
    destruct (EconomicIndicator.latest_value u1 <=? 3.5) eqn:A1;
      destruct (EconomicIndicator.latest_value u1 <=? 4.5) eqn:A2;
      destruct (EconomicIndicator.latest_value u1 <=? 6.0) eqn:A3;
      destruct (EconomicIndicator.latest_value u1 <=? 8.0) eqn:A4;
      destruct (EconomicIndicator.latest_value u2 <=? 3.5) eqn:B1;
      destruct (EconomicIndicator.latest_value u2 <=? 4.5) eqn:B2;
      destruct (EconomicIndicator.latest_value u2 <=? 6.0) eqn:B3;
      destruct (EconomicIndicator.latest_value u2 <=? 8.0) eqn:B4;
      order_facts; lra.
  - intros u E. rewrite score_employment_steps. cbv zeta.
    destruct (EconomicIndicator.latest_value u <=? 3.5) eqn:A1; [reflexivity|].
    order_facts. lra.
  - intros u E. rewrite score_employment_steps. cbv zeta.
    destruct (EconomicIndicator.latest_value u <=? 3.5) eqn:A1;
      destruct (EconomicIndicator.latest_value u <=? 4.5) eqn:A2;
      try reflexivity; order_facts; lra.
  - intros u E. rewrite score_employment_steps. cbv zeta.
    destruct (EconomicIndicator.latest_value u <=? 3.5) eqn:A1;
      destruct (EconomicIndicator.latest_value u <=? 4.5) eqn:A2;
      destruct (EconomicIndicator.latest_value u <=? 6.0) eqn:A3;
      destruct (EconomicIndicator.latest_value u <=? 8.0) eqn:A4;
      try reflexivity; order_facts; lra.
Qed.

(** C6.  On the empty snapshot set the overall score is the default 5.0,
    the health label is moderate, there are no concerns and no
    opportunities, and the confidence is 0.5. *)
Theorem insight_of_empty_set float_str self now :
  let insight := fst (analyze_economic_conditions float_str self now Dict.empty) in
  scores Dict.empty = []
  /\ overall_score Dict.empty = 5.0
  /\ AgentInsight.economic_health insight = "moderate"
  /\ AgentInsight.key_concerns insight = []
  /\ AgentInsight.opportunities insight = []
  /\ AgentInsight.confidence insight == 0.5.
Proof.
  cbv zeta. repeat split; reflexivity.
Qed.

(** C8.  The signal map has an ["equities"] key exactly when both the GDP
    and the UNEMPLOYMENT indicators are present; if either is absent the
    key is not there at all. *)
Theorem equities_needs_gdp_and_unemployment self indicators :
  let signals := fst (get_trading_signals self indicators) in
  (Dict.get "GDP" indicators = None \/ Dict.get "UNEMPLOYMENT" indicators = None ->
   Dict.get "equities" signals = None /\ ~ In "equities" (Dict.keys signals))
  /\ (Dict.contains "equities" signals = true
      <-> Dict.contains "GDP" indicators = true
          /\ Dict.contains "UNEMPLOYMENT" indicators = true).
Proof.
  cbv zeta.
  assert (E : Dict.contains "equities" (fst (get_trading_signals self indicators))
              = Dict.contains "GDP" indicators && Dict.contains "UNEMPLOYMENT" indicators).
  { unfold get_trading_signals, Dict.contains.
    destruct (Dict.get "FED_FUNDS" indicators) as [fed_funds|];
      destruct (Dict.get "GDP" indicators) as [gdp|];
      destruct (Dict.get "UNEMPLOYMENT" indicators) as [unemployment|]; cbn;
      repeat (case_bool; cbn); reflexivity. }
  split.
  - intro H.
    assert (F : Dict.contains "equities" (fst (get_trading_signals self indicators)) = false).
    { rewrite E. unfold Dict.contains. destruct H as [H|H]; rewrite H.
      - reflexivity.
      - apply andb_false_r. }
    split.
    + unfold Dict.contains in F.
      destruct (Dict.get "equities" (fst (get_trading_signals self indicators)));
        [discriminate|reflexivity].
    + intro Hin. apply DictFacts.contains_keys in Hin. congruence.
  - rewrite E. apply andb_true_iff.
Qed.

Lemma check_alerts_step_spec float_str now alerts item :
  check_alerts_step float_str now alerts item
  = (alerts ++ alerts_of_item float_str now item)%list.
Proof.
  destruct item as [key indicator].
  unfold check_alerts_step, alerts_of_item, swing_alert, threshold_alert, append.
  cbn [fst snd].
  destruct (Float.abs (EconomicIndicator.change_percent indicator) >? 10);
    destruct (String.eqb key "UNEMPLOYMENT") eqn:E1;
    [apply String.eqb_eq in E1; subst key|
     destruct (String.eqb key "INFLATION") eqn:E2;
     [apply String.eqb_eq in E2; subst key|
      destruct (String.eqb key "FED_FUNDS") eqn:E3;
      [apply String.eqb_eq in E3; subst key|
       destruct (String.eqb key "CONSUMER_SENTIMENT") eqn:E4;
       [apply String.eqb_eq in E4; subst key|]]]
    |apply String.eqb_eq in E1; subst key|
     destruct (String.eqb key "INFLATION") eqn:E2;
     [apply String.eqb_eq in E2; subst key|
      destruct (String.eqb key "FED_FUNDS") eqn:E3;
      [apply String.eqb_eq in E3; subst key|
       destruct (String.eqb key "CONSUMER_SENTIMENT") eqn:E4;
       [apply String.eqb_eq in E4; subst key|]]]];
    cbn [String.eqb Ascii.eqb Bool.eqb andb option_list];
    repeat case_bool; cbn [option_list];
    rewrite <- ?app_assoc, ?app_nil_r; reflexivity.
Qed.

Lemma check_alerts_fold float_str now items alerts :
  fold_left (check_alerts_step float_str now) items alerts
  = (alerts ++ flat_map (alerts_of_item float_str now) items)%list.
Proof.
  revert alerts. induction items as [|item items IH]; intro alerts; simpl.
  - rewrite app_nil_r. reflexivity.
  - rewrite IH, check_alerts_step_spec, <- app_assoc. reflexivity.
Qed.

Lemma check_alerts_expected float_str self now indicators :
  check_alerts float_str self now indicators
  = (expected_alerts float_str now indicators, self).
Proof.
  unfold check_alerts, expected_alerts. rewrite check_alerts_fold. reflexivity.
Qed.

(** C5.  The alert list is, indicator by indicator in the order of the
    snapshot set, the swing alert (if the change percent is beyond 10,
    critical beyond 20) followed by the threshold alert of the
    indicator's key (if its condition holds); one indicator can give both. *)
Theorem alerts_follow_rule_table float_str self now :
  (forall indicators,
      fst (check_alerts float_str self now indicators)
      = expected_alerts float_str now indicators)
  /\ (forall key i rest,
        fst (check_alerts float_str self now ((key, i) :: rest))
        = (option_list (swing_alert float_str now i)
             ++ option_list (threshold_alert float_str now key i)
             ++ fst (check_alerts float_str self now rest))%list)
  /\ (exists key i a1 a2,
        fst (check_alerts float_str self now [(key, i)]) = [a1; a2]
        /\ swing_alert float_str now i = Some a1
        /\ threshold_alert float_str now key i = Some a2).
Proof.
  repeat split.
  - intro indicators. rewrite check_alerts_expected. reflexivity.
  - intros key i rest. rewrite !check_alerts_expected. cbn [fst].
    unfold expected_alerts, Dict.items. cbn [flat_map].
    unfold alerts_of_item at 1. cbn [fst snd]. rewrite <- app_assoc. reflexivity.
  - exists "UNEMPLOYMENT",
      (EconomicIndicator.mk "UNRATE" "Unemployment Rate" 7.5 6.0 25.0 "2024-04-01" "up").
    do 2 eexists. rewrite check_alerts_expected.
    split; [|split]; reflexivity.
Qed.

Lemma restamp_alerts_of_item float_str now now' item :
  map (restamp_alert now) (alerts_of_item float_str now' item)
  = alerts_of_item float_str now item.
Proof.
  unfold alerts_of_item, swing_alert, threshold_alert. rewrite map_app.
  f_equal; repeat case_bool; reflexivity.
Qed.

Lemma restamp_expected_alerts float_str now now' indicators :
  map (restamp_alert now) (expected_alerts float_str now' indicators)
  = expected_alerts float_str now indicators.
Proof.
  unfold expected_alerts, Dict.items.
  induction indicators as [|item rest IH]; simpl; [reflexivity|].
  rewrite map_app, IH, restamp_alerts_of_item. reflexivity.
Qed.

(** C1, as stated, fails: two calls on one snapshot set, made at two clock
    readings, differ in the timestamp field of the insight and of every
    alert. *)
Lemma two_calls_differ_in_timestamp :
  (forall float_str,
      fst (analyze_economic_conditions float_str __init__
             "2024-05-01T12:00:00.000001" unemployment_only)
      <> fst (analyze_economic_conditions float_str __init__
                "2024-05-01T12:00:00.000002" unemployment_only))
  /\ (forall float_str,
        fst (check_alerts float_str __init__
               "2024-05-01T12:00:00.000001" unemployment_only)
        <> fst (check_alerts float_str __init__
                  "2024-05-01T12:00:00.000002" unemployment_only)).
Proof.
  split; intros float_str H.
  - apply (f_equal AgentInsight.timestamp) in H. discriminate H.
  - apply (f_equal (map AlertMessage.timestamp)) in H. discriminate H.
Qed.

Lemma restamp_nil now alerts : map (restamp_alert now) alerts = [] -> alerts = [].
Proof. destruct alerts; [reflexivity|discriminate]. Qed.

(** C1, amended.  Two calls of a derivation operation on one snapshot set
    agree in every field but the timestamp, which is the clock reading of
    the call.  So two insights are the same exactly when the two calls read
    the same clock value, two alert lists exactly when they do or there is
    no alert, and two signal maps always.  No operation reads or changes
    the agent. *)
Theorem repeated_calls_agree_up_to_timestamp float_str self self' now now' indicators :
  analyze_economic_conditions float_str self now indicators
  = (restamp_insight now (fst (analyze_economic_conditions float_str self' now' indicators)),
     self)
  /\ check_alerts float_str self now indicators
     = (map (restamp_alert now) (fst (check_alerts float_str self' now' indicators)), self)
  /\ get_trading_signals self indicators
     = (fst (get_trading_signals self' indicators), self)
  /\ AgentInsight.timestamp (fst (analyze_economic_conditions float_str self now indicators))
     = now
  /\ Forall (fun a => AlertMessage.timestamp a = now)
       (fst (check_alerts float_str self now indicators))
  /\ (fst (analyze_economic_conditions float_str self now indicators)
      = fst (analyze_economic_conditions float_str self' now' indicators)
      <-> now = now')
  /\ (fst (check_alerts float_str self now indicators)
      = fst (check_alerts float_str self' now' indicators)
      <-> now = now' \/ fst (check_alerts float_str self now indicators) = []).
Proof.
  pose proof (check_alerts_expected float_str) as E.
  assert (Stamped : forall t, Forall (fun a => AlertMessage.timestamp a = t)
                                (expected_alerts float_str t indicators)).
  { intro t. rewrite <- (restamp_expected_alerts _ t t).
    apply Forall_forall. intros a Hin.
    apply in_map_iff in Hin. destruct Hin as (b & <- & _). reflexivity. }
  split; [reflexivity|].
  split; [rewrite !E; cbn [fst]; rewrite restamp_expected_alerts; reflexivity|].
  split; [reflexivity|].
  split; [reflexivity|].
  split; [rewrite E; exact (Stamped now)|].
  split.
  - split.
    + intro H. apply (f_equal AgentInsight.timestamp) in H. exact H.
    + intros <-. reflexivity.
  - rewrite !E. cbn [fst]. split.
    + intro H. destruct (expected_alerts float_str now indicators) as [|a rest] eqn:L.
      * right. reflexivity.
      * left. pose proof (Stamped now) as S1. pose proof (Stamped now') as S2.
        rewrite L in S1. rewrite <- H in S2.
        inversion S1; subst. inversion S2; subst. congruence.
    + intros [<-|H]; [reflexivity|].
      rewrite H. symmetry.
      rewrite <- (restamp_expected_alerts float_str now now') in H.
      apply restamp_nil in H. exact H.
Qed.

End AgentProofs.

(** * The single-indicator query *)

Module QueryProofs.
Import indicators QuerySpec.

Lemma refreshed_keys float upstream K l acc :
  Dict.contains K (fold_left (data_fetcher.update_step float upstream) l acc) = true ->
  In K (Dict.keys l) \/ Dict.contains K acc = true.
Proof.
  revert acc. induction l as [|[key cfg] l IH]; intros acc H; simpl in *.
  - right. exact H.
  - apply IH in H. destruct H as [H|H]; [left; right; exact H|].
    unfold data_fetcher.update_step in H.
    destruct (data_fetcher.fetch_latest_data float (config.series_id cfg)
                (upstream (config.series_id cfg))) as [data|]; [|right; exact H].
    unfold Dict.contains in H. rewrite DictFacts.get_set in H.
    destruct (String.eqb K key) eqn:E.
    + apply String.eqb_eq in E. left. left. symmetry. exact E.
    + right. exact H.
Qed.

(** Every key of a refreshed snapshot set is a configured key. *)
Lemma refreshed_key_configured float upstream old K i :
  Dict.get K (data_fetcher.update_economic_data float upstream old) = Some i ->
  In K (Dict.keys config.CORE_INDICATORS).
Proof.
  intro H. unfold data_fetcher.update_economic_data in H.
  destruct (refreshed_keys float upstream K (Dict.items config.CORE_INDICATORS) Dict.empty)
    as [Hin|Hc].
  - unfold Dict.contains. rewrite H. reflexivity.
  - exact Hin.
  - discriminate Hc.
Qed.

Lemma ascii_upper_on_ascii : upper_on_ascii ascii_upper.
Proof. intros s _. reflexivity. Qed.

(** C10.  The query looks the uppercased name up: it returns the snapshot
    stored under it, or not-found when there is none.  Names with the same
    uppercase form get the same answer, and on a snapshot set built by a
    refresh the lowercase spelling of a present key, as the key itself,
    finds that key's snapshot; so does, on any snapshot set, every ASCII
    spelling whose uppercase form is a present key. *)
Theorem get_indicator_ignores_case (upper : string -> string) :
  (forall data k,
      get_indicator upper data k
      = match Dict.get (upper k) data with
        | Some i => Return i
        | None => HTTPException 404 ("Indicator " ++ upper k ++ " not found")
        end)
  /\ (forall data k k',
        upper k = upper k' -> get_indicator upper data k = get_indicator upper data k')
  /\ (upper_on_ascii upper ->
      forall float upstream old K i,
        Dict.get K (data_fetcher.update_economic_data float upstream old) = Some i ->
        get_indicator upper (data_fetcher.update_economic_data float upstream old) (lower K)
        = Return i
        /\ get_indicator upper (data_fetcher.update_economic_data float upstream old) K
           = Return i)
  /\ (upper_on_ascii upper ->
      forall data k i,
        ascii_text k = true ->
        Dict.get (ascii_upper k) data = Some i ->
        get_indicator upper data k = Return i).
Proof.
  split; [reflexivity|]. split; [|split].
  - intros data k k' E. unfold get_indicator. rewrite E. reflexivity.
  - intros Hupper float upstream old K i H.
    pose proof (refreshed_key_configured _ _ _ _ _ H) as Hin. simpl in Hin.
    unfold get_indicator, data_fetcher.get_economic_data. cbv zeta.
    repeat (destruct Hin as [<-|Hin];
            [rewrite !Hupper by reflexivity;
             match type of H with
             | Dict.get ?key _ = _ =>
                 change (ascii_upper (lower key)) with key;
                 change (ascii_upper key) with key
             end;
             rewrite H; split; reflexivity|]).
    destruct Hin.
  - intros Hupper data k i Hk H.
    unfold get_indicator, data_fetcher.get_economic_data. cbv zeta.
    rewrite (Hupper k Hk), H. reflexivity.
Qed.

End QueryProofs.

(** * Further properties of the refresh pipeline *)

Module FetcherExtras.
Import data_fetcher FetcherSpec ExtraSpec.

(** X1.  A fetch reads the two most recent observations only: older ones do
    not change its result, and the record carries the requested series id,
    the date of the latest observation and the two values read. *)
Theorem fetch_reads_two_observations float sid latest previous older :
  fetch_latest_data float sid (Json (Some (latest :: previous :: older)))
  = fetch_latest_data float sid (Json (Some [latest; previous]))
  /\ (forall data,
        fetch_latest_data float sid (Json (Some (latest :: previous :: older))) = Some data ->
        series_id data = sid
        /\ data_date data = date latest
        /\ value_or_zero float latest = Some (latest_value data)
        /\ value_or_zero float previous = Some (previous_value data)).
Proof.
  split; [reflexivity|]. intros data. simpl.
  destruct (value_or_zero float latest) as [l|]; [|discriminate].
  destruct (value_or_zero float previous) as [p|]; [|discriminate].
  intros [= <-]. simpl. repeat split; reflexivity.
Qed.









End FetcherExtras.

(** * Further properties of the refresh cycle and the periodic task *)

Module RefreshExtras.
Import data_fetcher FetcherSpec ExtraSpec.

(** Split on the outcome of each fetch of a refresh cycle. *)
Ltac case_fetches :=
  repeat match goal with
    | |- context [fetch_latest_data ?f ?s ?r] =>
        let data := fresh "data" in
        destruct (fetch_latest_data f s r) as [data|]
    end.

(** Split on whether a key is the literal it is compared with. *)
Ltac case_key :=
  match goal with
  | |- context [String.eqb ?k ?lit] =>
      is_var k;
      let E := fresh "E" in
      destruct (String.eqb k lit) eqn:E; [apply String.eqb_eq in E; subst k|]
  end.

(** Use the comparisons known to fail. *)
Ltac other_key :=
  repeat (cbn; match goal with
               | E : String.eqb _ _ = false |- _ => rewrite E
               end).

(** X5.  After a refresh, an indicator is in the store exactly when it is
    configured and its own fetch succeeded, and then it is the snapshot
    built from that fetch under the configured name; neither the other
    fetches nor the store before the refresh play a part. *)
Theorem refreshed_lookup float upstream old K :
  Dict.get K (update_economic_data float upstream old)
  = match Dict.get K config.CORE_INDICATORS with
    | Some cfg => option_map (indicator_of cfg) (fetched float upstream cfg)
    | None => None
    end.
Proof.
  unfold update_economic_data, Dict.items, config.CORE_INDICATORS, fetched.
  cbn [Dict.get]. repeat case_key; cbn; case_fetches; other_key; reflexivity.
Qed.

(** X6.  The keys of a refreshed store are the configured keys whose fetch
    succeeded, in configuration order and without repetition; there are at
    most five. *)
Theorem refreshed_keys_in_order float upstream old :
  let store := update_economic_data float upstream old in
  Dict.keys store
  = Dict.keys (filter (fun entry => match fetched float upstream (snd entry) with
                                   | Some _ => true
                                   | None => false
                                   end)
                 config.CORE_INDICATORS)
  /\ NoDup (Dict.keys store)
  /\ (length store <= 5)%nat.
Proof.
  unfold update_economic_data, Dict.items, config.CORE_INDICATORS, fetched.
  cbn [fold_left update_step config.series_id config.name snd filter].
  case_fetches; cbn; (split; [reflexivity|]); (split; [|lia]);
    repeat (constructor; [cbn; intuition discriminate|]); constructor.
Qed.

Lemma last_cons {A : Type} (l : list A) (a d : A) : last (a :: l) d = last l a.
Proof.
  revert a d. induction l as [|b l IH]; intros a d; [reflexivity|].
  change (last (a :: b :: l) d) with (last (b :: l) d). rewrite !IH. reflexivity.
Qed.

Lemma periodic_update_last float iterations upstream old :
  main.periodic_update float iterations (update_economic_data float upstream old)
  = update_economic_data float (last iterations upstream) Dict.empty.
Proof.
  revert upstream old. induction iterations as [|u rest IH]; intros upstream old.
  - reflexivity.
  - cbn [main.periodic_update]. rewrite IH, last_cons. reflexivity.
Qed.

(** X7.  Whatever the startup refresh and the completed iterations of the
    periodic task fetched, the store is the one the most recent refresh
    built: earlier successes are not kept, and if every fetch of the most
    recent refresh failed the store is empty. *)
Theorem store_is_last_refresh float startup iterations old :
  main.lifespan float startup iterations old
  = update_economic_data float (last iterations startup) Dict.empty
  /\ (every_fetch_fails float (last iterations startup) ->
      main.lifespan float startup iterations old = Dict.empty).
Proof.
  unfold main.lifespan. rewrite periodic_update_last. split; [reflexivity|].
  intro H. unfold update_economic_data. apply FetcherProofs.failed_steps_keep. exact H.
Qed.

End RefreshExtras.

(** * Further properties of the scoring engine and the insight *)

Module ScoreExtras.
Import agent AgentSpec ExtraSpec.

Ltac case_bool := AgentProofs.case_bool.
Ltac order_facts := AgentProofs.order_facts.

(** Split on every threshold test of the goal, keeping what it says. *)
Ltac case_order :=
  repeat match goal with
    | |- context [if ?b then _ else _] =>
        lazymatch type of b with bool => let E := fresh "E" in destruct b eqn:E end
    end.

(** X8.  Each of the five sub-scores is absent for an absent indicator and
    otherwise lies between 2 and 10. *)
Theorem sub_scores_in_range :
  (_score_employment None = None /\ _score_inflation None = None
   /\ _score_growth None = None /\ _score_sentiment None = None
   /\ _score_monetary_policy None = None)
  /\ (forall i, exists employment inflation growth sentiment monetary,
         _score_employment (Some i) = Some employment
         /\ _score_inflation (Some i) = Some inflation
         /\ _score_growth (Some i) = Some growth
         /\ _score_sentiment (Some i) = Some sentiment
         /\ _score_monetary_policy (Some i) = Some monetary
         /\ 2 <= employment <= 10 /\ 3 <= inflation <= 9 /\ 2 <= growth <= 9
         /\ 3 <= sentiment <= 9 /\ 4 <= monetary <= 8).
Proof.
  split; [repeat split; reflexivity|]. intro i.
  unfold _score_employment, _score_inflation, _score_growth, _score_sentiment,
    _score_monetary_policy. cbv zeta.
  repeat case_bool; do 5 eexists;
    (repeat (split; [reflexivity|])); repeat split; discriminate.
Qed.

Lemma score_bounds o s :
  _score_employment o = Some s \/ _score_inflation o = Some s
  \/ _score_growth o = Some s \/ _score_sentiment o = Some s
  \/ _score_monetary_policy o = Some s ->
  2 <= s <= 10.
Proof.
  destruct o as [i|]; [|intros [E|[E|[E|[E|E]]]]; discriminate E].
  unfold _score_employment, _score_inflation, _score_growth, _score_sentiment,
    _score_monetary_policy. cbv zeta.
  intros [E|[E|[E|[E|E]]]];
    repeat match type of E with
      | context [if ?b then _ else _] =>
          lazymatch type of b with bool => destruct b end
      end;
    injection E as E; subst s; split; discriminate.
Qed.

Lemma not_none_in x l : In x (not_none l) <-> In (Some x) l.
Proof.
  induction l as [|[y|] l IH]; simpl.
  - tauto.
  - rewrite IH. split; intros [H|H]; auto; left; congruence.
  - rewrite IH. split; [auto|]. intros [H|H]; [discriminate|exact H].
Qed.

Lemma scores_in_range indicators x : In x (scores indicators) -> 2 <= x <= 10.
Proof.
  unfold scores. cbv zeta. rewrite not_none_in. simpl.
  intros [H|[H|[H|[H|[H|[]]]]]]; eapply score_bounds; eauto 6.
Qed.

Lemma sum_bounds l acc :
  (forall x, In x l -> 2 <= x <= 10) ->
  acc + 2 * inject_Z (Z.of_nat (length l)) <= fold_left Qplus l acc
  /\ fold_left Qplus l acc <= acc + 10 * inject_Z (Z.of_nat (length l)).
Proof.
  revert acc. induction l as [|x l IH]; intros acc H.
  - simpl. change (inject_Z 0) with 0. split; lra.
  - cbn [fold_left length]. rewrite Nat2Z.inj_succ. unfold Z.succ.
    rewrite inject_Z_plus. change (inject_Z 1) with 1.
    assert (Hx : 2 <= x <= 10) by (apply H; left; reflexivity).
    destruct (IH (acc + x)) as [Hlo Hhi]; [intros y Hy; apply H; right; exact Hy|].
    split; lra.
Qed.

Lemma mean_bounds l :
  l <> [] -> (forall x, In x l -> 2 <= x <= 10) -> 2 <= Float.mean l <= 10.
Proof.
  intros Hne H. unfold Float.mean.
  destruct (sum_bounds l 0 H) as [Hlo Hhi].
  assert (Hn : 0 < inject_Z (Z.of_nat (length l))).
  { change 0 with (inject_Z 0). rewrite <- Zlt_Qlt.
    destruct l; [congruence|]. simpl. lia. }
  split.
  - apply Qle_shift_div_l; [exact Hn|]. lra.
  - apply Qle_shift_div_r; [exact Hn|]. lra.
Qed.

Lemma overall_score_bounds indicators : 2 <= overall_score indicators <= 10.
Proof.
  unfold overall_score.
  destruct (scores indicators) as [|x l] eqn:E; [split; discriminate|].
  apply (mean_bounds (x :: l)).
  - intro D. discriminate D.
  - rewrite <- E. apply scores_in_range.
Qed.

Lemma confidence_unclamped indicators :
  Float.min (overall_score indicators / 10) 1.0 = overall_score indicators / 10.
Proof.
  pose proof (overall_score_bounds indicators) as B.
  unfold Float.min. destruct (1.0 <? overall_score indicators / 10) eqn:L; [|reflexivity].
  apply FloatFacts.ltb_true in L. unfold Qdiv in L. change (/ 10) with (1 # 10) in L. lra.
Qed.

(** X9.  The overall score lies between 2 and 10 on every snapshot set, so
    the confidence of the insight is the overall score over ten, never
    clamped, and lies between 0.2 and 1. *)
Theorem confidence_in_range float_str self now indicators :
  let insight := fst (analyze_economic_conditions float_str self now indicators) in
  2 <= overall_score indicators <= 10
  /\ AgentInsight.confidence insight = overall_score indicators / 10
  /\ 0.2 <= AgentInsight.confidence insight <= 1.
Proof.
  cbv zeta. pose proof (overall_score_bounds indicators) as B.
  split; [exact B|]. cbn [analyze_economic_conditions fst AgentInsight.confidence].
  rewrite confidence_unclamped. split; [reflexivity|].
  unfold Qdiv. change (/ 10) with (1 # 10). lra.
Qed.

(** X10.  The health label is one of strong, moderate and weak, and always
    agrees with the confidence: strong from 0.7, moderate from 0.5 up to
    0.7, weak below 0.5. *)
Theorem health_agrees_with_confidence float_str self now indicators :
  let insight := fst (analyze_economic_conditions float_str self now indicators) in
  (AgentInsight.economic_health insight = "strong"
   <-> 0.7 <= AgentInsight.confidence insight)
  /\ (AgentInsight.economic_health insight = "moderate"
      <-> 0.5 <= AgentInsight.confidence insight < 0.7)
  /\ (AgentInsight.economic_health insight = "weak"
      <-> AgentInsight.confidence insight < 0.5).
Proof.
  cbv zeta.
  cbn [analyze_economic_conditions fst AgentInsight.economic_health AgentInsight.confidence].
  rewrite confidence_unclamped. unfold health_of, Qdiv. change (/ 10) with (1 # 10).
  case_order; order_facts; repeat split; intros; try discriminate; try lra.
Qed.

(** X11.  The growth score never falls as the GDP change percent rises. *)
Theorem score_growth_monotone g1 g2 :
  EconomicIndicator.change_percent g1 <= EconomicIndicator.change_percent g2 ->
  exists s1 s2,
    _score_growth (Some g1) = Some s1 /\ _score_growth (Some g2) = Some s2 /\ s1 <= s2.
Proof.
  intro Hle. unfold _score_growth. cbv zeta.
  case_order; order_facts; do 2 eexists;
    (split; [reflexivity|]); (split; [reflexivity|]);
    first [discriminate | exfalso; lra].
Qed.

Lemma score_growth_monotone_witness :
  exists s1 s2,
    _score_growth (Some (EconomicIndicator.mk "GDP" "Gross Domestic Product"
                           101 100 1.0 "2024-04-01" "up")) = Some s1
    /\ _score_growth (Some (EconomicIndicator.mk "GDP" "Gross Domestic Product"
                              103 100 3.0 "2024-04-01" "up")) = Some s2
    /\ s1 <= s2.
Proof.
  apply (score_growth_monotone
           (EconomicIndicator.mk "GDP" "Gross Domestic Product" 101 100 1.0 "2024-04-01" "up")
           (EconomicIndicator.mk "GDP" "Gross Domestic Product" 103 100 3.0 "2024-04-01" "up")).
  discriminate.
Defined.

(** X12.  The sentiment score never falls as the sentiment index rises. *)
Theorem score_sentiment_monotone c1 c2 :
  EconomicIndicator.latest_value c1 <= EconomicIndicator.latest_value c2 ->
  exists s1 s2,
    _score_sentiment (Some c1) = Some s1 /\ _score_sentiment (Some c2) = Some s2
    /\ s1 <= s2.
Proof.
  intro Hle. unfold _score_sentiment. cbv zeta.
  case_order; order_facts; do 2 eexists;
    (split; [reflexivity|]); (split; [reflexivity|]);
    first [discriminate | exfalso; lra].
Qed.

Lemma score_sentiment_monotone_witness :
  exists s1 s2,
    _score_sentiment (Some (EconomicIndicator.mk "UMCSENT" "Consumer Sentiment"
                              65 66 (-1.52) "2024-04-01" "down")) = Some s1
    /\ _score_sentiment (Some (EconomicIndicator.mk "UMCSENT" "Consumer Sentiment"
                                 95 94 1.06 "2024-04-01" "up")) = Some s2
    /\ s1 <= s2.
Proof.
  apply (score_sentiment_monotone
           (EconomicIndicator.mk "UMCSENT" "Consumer Sentiment" 65 66 (-1.52) "2024-04-01" "down")
           (EconomicIndicator.mk "UMCSENT" "Consumer Sentiment" 95 94 1.06 "2024-04-01" "up")).
  discriminate.
Defined.

(** X13.  The inflation score depends on the size of the change percent
    only, not on its sign, and never rises as that size grows. *)
Theorem score_inflation_by_size c1 c2 :
  Qabs (EconomicIndicator.change_percent c1) <= Qabs (EconomicIndicator.change_percent c2) ->
  exists s1 s2,
    _score_inflation (Some c1) = Some s1 /\ _score_inflation (Some c2) = Some s2
    /\ s2 <= s1
    /\ (Qabs (EconomicIndicator.change_percent c1)
        == Qabs (EconomicIndicator.change_percent c2) -> s1 = s2).
Proof.
  intro Hle. unfold _score_inflation, Float.abs. cbv zeta.
  case_order; order_facts; do 2 eexists;
    (split; [reflexivity|]); (split; [reflexivity|]);
    first [ exfalso; lra
          | split; [discriminate|]; intro Heq; first [reflexivity | exfalso; lra] ].
Qed.

Lemma score_inflation_by_size_witness :
  exists s1 s2,
    _score_inflation (Some (EconomicIndicator.mk "CPIAUCSL" "Consumer Price Index"
                              97 100 (-3.0) "2024-04-01" "down")) = Some s1
    /\ _score_inflation (Some (EconomicIndicator.mk "CPIAUCSL" "Consumer Price Index"
                                 103 100 3.0 "2024-04-01" "up")) = Some s2
    /\ s2 <= s1
    /\ (Qabs (-3.0) == Qabs 3.0 -> s1 = s2).
Proof.
  apply (score_inflation_by_size
           (EconomicIndicator.mk "CPIAUCSL" "Consumer Price Index" 97 100 (-3.0) "2024-04-01" "down")
           (EconomicIndicator.mk "CPIAUCSL" "Consumer Price Index" 103 100 3.0 "2024-04-01" "up")).
  discriminate.
Defined.

(** X14.  A federal funds rate above 5.0 scores 4.0 whatever its trend, and
    only such a rate does; at or below 5.0 the score is 8.0, 6.0 or 7.0. *)
Theorem score_monetary_restrictive f :
  exists s,
    _score_monetary_policy (Some f) = Some s
    /\ (5.0 < EconomicIndicator.latest_value f <-> s = 4.0)
    /\ (EconomicIndicator.latest_value f <= 5.0 -> s = 8.0 \/ s = 6.0 \/ s = 7.0).
Proof.
  unfold _score_monetary_policy. cbv zeta.
  destruct (EconomicIndicator.latest_value f <=? 2.0) eqn:A;
    destruct (EconomicIndicator.latest_value f <=? 5.0) eqn:B;
    destruct (EconomicIndicator.latest_value f >? 5.0) eqn:C;
    destruct (String.eqb (EconomicIndicator.trend f) "stable");
    destruct (String.eqb (EconomicIndicator.trend f) "up");
    cbn [andb]; order_facts; eexists; (split; [reflexivity|]);
    first [ exfalso; lra
          | split;
            [ split; intro H; first [reflexivity | lra | discriminate H | exfalso; lra]
            | intro H;
              first [ exfalso; lra | left; reflexivity | right; left; reflexivity
                    | right; right; reflexivity ] ] ].
Qed.

(** X15.  An absent indicator is left out of the overall score, not counted
    as zero: with only the unemployment indicator present the overall score
    is its employment score. *)
Theorem overall_score_excludes_absent indicators u :
  Dict.get "UNEMPLOYMENT" indicators = Some u ->
  Dict.get "INFLATION" indicators = None ->
  Dict.get "GDP" indicators = None ->
  Dict.get "CONSUMER_SENTIMENT" indicators = None ->
  Dict.get "FED_FUNDS" indicators = None ->
  exists s, _score_employment (Some u) = Some s /\ overall_score indicators == s.
Proof.
  intros Hu Hi Hg Hc Hf. unfold overall_score, scores. cbv zeta.
  rewrite Hu, Hi, Hg, Hc, Hf, (AgentProofs.score_employment_steps u). cbv zeta.
  eexists. split; [reflexivity|].
  cbn [_score_inflation _score_growth _score_sentiment _score_monetary_policy not_none].
  unfold Float.mean. cbn [fold_left length Z.of_nat Pos.of_succ_nat].
  change (inject_Z 1) with 1. field.
Qed.

Lemma overall_score_excludes_absent_witness :
  exists s,
    _score_employment (Some (EconomicIndicator.mk "UNRATE" "Unemployment Rate"
                               7.5 6.0 25.0 "2024-04-01" "up")) = Some s
    /\ overall_score unemployment_only == s.
Proof.
  apply (overall_score_excludes_absent unemployment_only
           (EconomicIndicator.mk "UNRATE" "Unemployment Rate" 7.5 6.0 25.0 "2024-04-01" "up"));
    reflexivity.
Defined.

End ScoreExtras.

(** * Further properties of the alert engine *)

Module AlertExtras.
Import agent AgentSpec ExtraSpec.

Ltac case_order := ScoreExtras.case_order.
Ltac order_facts := AgentProofs.order_facts.

(** Split on which rule key, if any, a key is. *)
Ltac case_rule_key key :=
  let E := fresh "E" in
  destruct (String.eqb key "UNEMPLOYMENT") eqn:E;
  [apply String.eqb_eq in E; subst key|
   let E := fresh "E" in
   destruct (String.eqb key "INFLATION") eqn:E;
   [apply String.eqb_eq in E; subst key|
    let E := fresh "E" in
    destruct (String.eqb key "FED_FUNDS") eqn:E;
    [apply String.eqb_eq in E; subst key|
     let E := fresh "E" in
     destruct (String.eqb key "CONSUMER_SENTIMENT") eqn:E;
     [apply String.eqb_eq in E; subst key|]]]].

Lemma get_in {V : Type} (k : string) (d : Dict.t V) (v : V) :
  Dict.get k d = Some v -> In (k, v) (Dict.items d).
Proof.
  unfold Dict.items. induction d as [|[k' v'] d IH]; simpl; [discriminate|].
  destruct (String.eqb k k') eqn:E.
  - apply String.eqb_eq in E. intros [= ->]. left. subst. reflexivity.
  - intro H. right. apply IH. exact H.
Qed.

Lemma alerts_of_present float_str self now indicators key i a :
  Dict.get key indicators = Some i ->
  In a (alerts_of_item float_str now (key, i)) ->
  In a (fst (check_alerts float_str self now indicators)).
Proof.
  intros Hget Hin. rewrite AgentProofs.check_alerts_expected. cbn [fst].
  unfold expected_alerts. apply in_flat_map. exists (key, i).
  split; [apply get_in; exact Hget|exact Hin].
Qed.

(** X16.  Alerts are computed entry by entry: the alerts of two snapshot
    lists put end to end are the alerts of the first followed by those of
    the second, and there are at most two alerts per entry. *)
Theorem alerts_compose float_str self now indicators indicators' :
  fst (check_alerts float_str self now (indicators ++ indicators')%list)
  = (fst (check_alerts float_str self now indicators)
       ++ fst (check_alerts float_str self now indicators'))%list
  /\ (length (fst (check_alerts float_str self now indicators))
      <= 2 * length indicators)%nat.
Proof.
  rewrite !AgentProofs.check_alerts_expected. cbn [fst].
  unfold expected_alerts, Dict.items. split; [apply flat_map_app|].
  induction indicators as [|item rest IH]; [simpl; lia|].
  cbn [flat_map length]. rewrite length_app.
  assert (H : (length (alerts_of_item float_str now item) <= 2)%nat).
  { unfold alerts_of_item. rewrite length_app.
    destruct (swing_alert float_str now (snd item));
      destruct (threshold_alert float_str now (fst item) (snd item)); simpl; lia. }
  lia.
Qed.

(** X17.  Every alert is a warning or critical, never info, and names an
    indicator of the snapshot set. *)
Theorem alerts_are_warnings_or_critical float_str self now indicators :
  Forall (fun a =>
            (AlertMessage.severity a = "warning" \/ AlertMessage.severity a = "critical")
            /\ exists key i, In (key, i) (Dict.items indicators)
                             /\ AlertMessage.indicator a = EconomicIndicator.name i)
    (fst (check_alerts float_str self now indicators)).
Proof.
  rewrite AgentProofs.check_alerts_expected. cbn [fst].
  apply Forall_forall. intros a Hin. unfold expected_alerts in Hin.
  apply in_flat_map in Hin. destruct Hin as ([key i] & Hitem & Ha).
  split; [|exists key, i; split; [exact Hitem|]];
    unfold alerts_of_item, swing_alert, threshold_alert in Ha; cbn [fst snd] in Ha;
    apply in_app_or in Ha; destruct Ha as [Ha|Ha];
    repeat match type of Ha with
      | context [if ?b then _ else _] =>
          lazymatch type of b with bool => destruct b end
      end;
    cbn [option_list In] in Ha;
    first [contradiction | destruct Ha as [<-|[]]; cbn; auto].
Qed.

(** Settle one rule of [quiet] for a key that is known. *)
Ltac quiet_rule :=
  let K := fresh "K" in
  intro K;
  first [discriminate K | lra | exfalso; apply String.eqb_eq in K; congruence].

Lemma alerts_of_item_quiet float_str now item :
  alerts_of_item float_str now item = [] <-> quiet item.
Proof.
  destruct item as [key i].
  unfold alerts_of_item, swing_alert, threshold_alert, quiet, Float.abs. cbn [fst snd].
  destruct (Qabs (EconomicIndicator.change_percent i) >? 10) eqn:S;
    case_rule_key key; case_order; order_facts; cbn [option_list app];
    (split;
     [ intro H;
       first [ discriminate H
             | split; [lra|]; split; [quiet_rule|]; split; [quiet_rule|];
               split; quiet_rule ]
     | intros (Q0 & Q1 & Q2 & Q3 & Q4);
       first [ reflexivity
             | exfalso;
               first [ lra
                     | specialize (Q1 eq_refl); lra
                     | specialize (Q2 eq_refl); lra
                     | specialize (Q3 eq_refl); lra
                     | specialize (Q4 eq_refl); lra ] ] ]).
Qed.

(** X18.  There are no alerts exactly when every entry of the snapshot set
    is within every rule: change percent within 10 either way, unemployment
    at most 7.0, inflation change within 6.0, federal funds at most 6.0,
    consumer sentiment at least 60. *)
Theorem no_alerts_iff_quiet float_str self now indicators :
  fst (check_alerts float_str self now indicators) = []
  <-> Forall quiet (Dict.items indicators).
Proof.
  rewrite AgentProofs.check_alerts_expected. cbn [fst].
  unfold expected_alerts, Dict.items.
  induction indicators as [|item rest IH]; cbn [flat_map].
  - split; [constructor|reflexivity].
  - split.
    + intro H. apply app_eq_nil in H. destruct H as [H1 H2].
      constructor; [apply (alerts_of_item_quiet float_str now); exact H1|apply IH; exact H2].
    + intro H. inversion H as [|x l Hq Hrest]; subst.
      apply (alerts_of_item_quiet float_str now) in Hq. rewrite Hq.
      apply IH. exact Hrest.
Qed.

End AlertExtras.

(** * Further properties of the insight and of the signals *)

Module InsightExtras.
Import agent AgentSpec ExtraSpec.

Ltac case_bool := AgentProofs.case_bool.
Ltac order_facts := AgentProofs.order_facts.

(** Split on the presence of each indicator the goal looks up. *)
Ltac case_gets :=
  repeat match goal with
    | |- context [Dict.get ?k ?d] =>
        let i := fresh "i" in destruct (Dict.get k d) as [i|]
    end.

(** Membership in a list built by appends. *)
Ltac in_appended :=
  unfold append; cbn [app In]; repeat (first [left; reflexivity | right]).

Lemma gtb_from x y : y < x -> (x >? y) = true.
Proof. apply FloatFacts.gtb_true. Qed.

Lemma ltb_from x y : x < y -> (x <? y) = true.
Proof. apply FloatFacts.ltb_true. Qed.

(** X19.  Each threshold alert comes with a concern in the insight of the
    same snapshot set: unemployment above 7.0, an inflation change beyond
    6.0, a federal funds rate above 6.0 and consumer sentiment below 60
    give both the alert and the corresponding concern. *)
Theorem threshold_alert_has_concern float_str self now indicators :
  let found := fst (check_alerts float_str self now indicators) in
  let concerns :=
    AgentInsight.key_concerns
      (fst (analyze_economic_conditions float_str self now indicators)) in
  (forall i, Dict.get "UNEMPLOYMENT" indicators = Some i ->
             7.0 < EconomicIndicator.latest_value i ->
             In (AlertMessage.mk "critical" (EconomicIndicator.name i)
                   ("Unemployment rate high at "
                      ++ float_str (EconomicIndicator.latest_value i) ++ "%") now) found
             /\ In ("High unemployment at "
                      ++ float_str (EconomicIndicator.latest_value i) ++ "%") concerns)
  /\ (forall i, Dict.get "INFLATION" indicators = Some i ->
                6.0 < Qabs (EconomicIndicator.change_percent i) ->
                In (AlertMessage.mk "warning" (EconomicIndicator.name i)
                      ("High inflation volatility: "
                         ++ float_str (EconomicIndicator.change_percent i) ++ "%") now) found
                /\ In ("High inflation volatility: "
                         ++ float_str (EconomicIndicator.change_percent i) ++ "%") concerns)
  /\ (forall i, Dict.get "FED_FUNDS" indicators = Some i ->
                6.0 < EconomicIndicator.latest_value i ->
                In (AlertMessage.mk "warning" (EconomicIndicator.name i)
                      ("Federal funds rate elevated at "
                         ++ float_str (EconomicIndicator.latest_value i) ++ "%") now) found
                /\ In "High interest rates constraining growth" concerns)
  /\ (forall i, Dict.get "CONSUMER_SENTIMENT" indicators = Some i ->
                EconomicIndicator.latest_value i < 60 ->
                In (AlertMessage.mk "warning" (EconomicIndicator.name i)
                      ("Consumer sentiment low at "
                         ++ float_str (EconomicIndicator.latest_value i)) now) found
                /\ In "Low consumer confidence" concerns).
Proof.
  cbv zeta. cbn [analyze_economic_conditions fst AgentInsight.key_concerns].
  split; [|split; [|split]]; intros i Hget Hover.
  - split.
    + apply (AlertExtras.alerts_of_present _ _ _ _ _ _ _ Hget).
      unfold alerts_of_item, threshold_alert. cbn [fst snd String.eqb Ascii.eqb Bool.eqb].
      rewrite (gtb_from _ _ Hover). apply in_or_app. right. left. reflexivity.
    + unfold _identify_concerns. rewrite Hget.
      assert (H6 : 6.0 < EconomicIndicator.latest_value i) by lra.
      rewrite (gtb_from _ _ H6). case_gets; repeat case_bool; in_appended.
  - split.
    + apply (AlertExtras.alerts_of_present _ _ _ _ _ _ _ Hget).
      unfold alerts_of_item, threshold_alert, Float.abs.
      cbn [fst snd String.eqb Ascii.eqb Bool.eqb].
      rewrite (gtb_from _ _ Hover). apply in_or_app. right. left. reflexivity.
    + unfold _identify_concerns, Float.abs. rewrite Hget.
      assert (H5 : 5.0 < Qabs (EconomicIndicator.change_percent i)) by lra.
      rewrite (gtb_from _ _ H5). case_gets; repeat case_bool; in_appended.
  - split.
    + apply (AlertExtras.alerts_of_present _ _ _ _ _ _ _ Hget).
      unfold alerts_of_item, threshold_alert. cbn [fst snd String.eqb Ascii.eqb Bool.eqb].
      rewrite (gtb_from _ _ Hover). apply in_or_app. right. left. reflexivity.
    + unfold _identify_concerns. rewrite Hget, (gtb_from _ _ Hover).
      case_gets; repeat case_bool; in_appended.
  - split.
    + apply (AlertExtras.alerts_of_present _ _ _ _ _ _ _ Hget).
      unfold alerts_of_item, threshold_alert. cbn [fst snd String.eqb Ascii.eqb Bool.eqb].
      rewrite (ltb_from _ _ Hover). apply in_or_app. right. left. reflexivity.
    + unfold _identify_concerns. rewrite Hget.
      assert (H70 : EconomicIndicator.latest_value i < 70) by lra.
      rewrite (ltb_from _ _ H70). case_gets; repeat case_bool; in_appended.
Qed.

Lemma prefix_append (s t : string) : String.prefix s (s ++ t) = true.
Proof.
  induction s as [|a s IH]; [destruct t; reflexivity|].
  cbn [String.append String.prefix]. destruct (ascii_dec a a); [exact IH|congruence].
Qed.

Lemma join_starts_with_first (sep first : string) (rest : list string) :
  exists tail, join sep (first :: rest) = first ++ tail.
Proof.
  unfold join. destruct rest as [|second rest].
  - exists "". cbn [String.concat]. induction first as [|a s IH]; [reflexivity|].
    cbn [String.append]. rewrite <- IH. reflexivity.
  - eexists. cbn [String.concat]. reflexivity.
Qed.

(** X20.  The summary names at most the first two concerns and the first
    two opportunities, whatever follows them in the lists, and always
    begins with the sentence stating the health label. *)
Theorem summary_uses_first_two float_str health indicators concerns opportunities :
  _generate_summary float_str health indicators concerns opportunities
  = _generate_summary float_str health indicators (firstn 2 concerns) (firstn 2 opportunities)
  /\ String.prefix ("Economic health is currently " ++ health ++ ".")
       (_generate_summary float_str health indicators concerns opportunities) = true.
Proof.
  split.
  - destruct concerns as [|c1 [|c2 cs]]; destruct opportunities as [|o1 [|o2 os]];
      reflexivity.
  - unfold _generate_summary.
    generalize ("Economic health is currently " ++ health ++ ".") as first.
    intro first.
    destruct concerns as [|c1 cs]; destruct opportunities as [|o1 os]; case_gets;
      unfold append; cbn [app];
    match goal with
    | |- String.prefix first (join " " (first :: ?rest)) = true =>
        destruct (join_starts_with_first " " first rest) as [tail ->]
    end;
    apply prefix_append.
Qed.

(** X21.  The insight has at most five concerns and at most five
    opportunities, one per rule indicator at most. *)
Theorem concerns_at_most_five float_str self now indicators :
  let insight := fst (analyze_economic_conditions float_str self now indicators) in
  (length (AgentInsight.key_concerns insight) <= 5)%nat
  /\ (length (AgentInsight.opportunities insight) <= 5)%nat.
Proof.
  cbv zeta.
  cbn [analyze_economic_conditions fst AgentInsight.key_concerns AgentInsight.opportunities].
  split.
  - unfold _identify_concerns, append. case_gets; repeat case_bool; cbn [app length]; lia.
  - unfold _identify_opportunities, append. case_gets; repeat case_bool; cbn [app length]; lia.
Qed.

(** The keys the scoring and narrative rules look up. *)
Lemma insight_of_lookups float_str self now indicators indicators' :
  Dict.get "UNEMPLOYMENT" indicators = Dict.get "UNEMPLOYMENT" indicators' ->
  Dict.get "INFLATION" indicators = Dict.get "INFLATION" indicators' ->
  Dict.get "GDP" indicators = Dict.get "GDP" indicators' ->
  Dict.get "CONSUMER_SENTIMENT" indicators = Dict.get "CONSUMER_SENTIMENT" indicators' ->
  Dict.get "FED_FUNDS" indicators = Dict.get "FED_FUNDS" indicators' ->
  analyze_economic_conditions float_str self now indicators
  = analyze_economic_conditions float_str self now indicators'.
Proof.
  intros Hu Hi Hg Hc Hf.
  unfold analyze_economic_conditions, overall_score, scores, _identify_concerns,
    _identify_opportunities, _generate_summary.
  rewrite Hu, Hi, Hg, Hc, Hf. reflexivity.
Qed.

(** X22.  The insight depends on the snapshot set only through the
    snapshots of the five rule indicators: two sets that agree on those
    five lookups, in whatever order and with whatever other entries, give
    the same insight, and so do the signals. *)
Theorem insight_reads_five_indicators float_str self now indicators indicators' :
  (forall key, In key ["UNEMPLOYMENT"; "INFLATION"; "GDP"; "CONSUMER_SENTIMENT"; "FED_FUNDS"] ->
               Dict.get key indicators = Dict.get key indicators') ->
  analyze_economic_conditions float_str self now indicators
  = analyze_economic_conditions float_str self now indicators'
  /\ get_trading_signals self indicators = get_trading_signals self indicators'.
Proof.
  intro H.
  assert (Hu := H "UNEMPLOYMENT"). assert (Hi := H "INFLATION"). assert (Hg := H "GDP").
  assert (Hc := H "CONSUMER_SENTIMENT"). assert (Hf := H "FED_FUNDS").
  cbn [In] in Hu, Hi, Hg, Hc, Hf.
  split.
  - apply insight_of_lookups; auto 10.
  - unfold get_trading_signals, Dict.contains.
    rewrite Hu, Hg, Hf by auto 10. reflexivity.
Qed.

(** The same two snapshots stored in either order, next to an unknown key. *)
Lemma insight_reads_five_indicators_witness :
  let unemployment :=
    EconomicIndicator.mk "UNRATE" "Unemployment Rate" 7.5 6.0 25.0 "2024-04-01" "up" in
  let fed_funds :=
    EconomicIndicator.mk "FEDFUNDS" "Federal Funds Rate" 6.5 6.5 0 "2024-04-01" "stable" in
  let float_str := float_str_on [(7.5, "7.5"); (6.5, "6.5"); (25.0, "25.0")] in
  analyze_economic_conditions float_str __init__ "2024-05-01T12:00:00"
    [("UNEMPLOYMENT", unemployment); ("FED_FUNDS", fed_funds)]
  = analyze_economic_conditions float_str __init__ "2024-05-01T12:00:00"
      [("HOUSING", fed_funds); ("FED_FUNDS", fed_funds); ("UNEMPLOYMENT", unemployment)]
  /\ get_trading_signals __init__ [("UNEMPLOYMENT", unemployment); ("FED_FUNDS", fed_funds)]
     = get_trading_signals __init__
         [("HOUSING", fed_funds); ("FED_FUNDS", fed_funds); ("UNEMPLOYMENT", unemployment)].
Proof.
  cbv zeta.
  apply (insight_reads_five_indicators
           (float_str_on [(7.5, "7.5"); (6.5, "6.5"); (25.0, "25.0")])
           __init__ "2024-05-01T12:00:00").
  intros key Hin. cbn [In] in Hin.
  repeat (destruct Hin as [<-|Hin]; [reflexivity|]). destruct Hin.
Defined.

End InsightExtras.

(** * Further properties of the signal engine *)

Module SignalExtras.
Import agent AgentSpec ExtraSpec.

Ltac case_bool := AgentProofs.case_bool.
Ltac case_gets := InsightExtras.case_gets.

(** X23.  The signal map holds, in this order, the bonds signal when the
    federal funds indicator is present, the equities signal when GDP and
    unemployment are, and the dollar signal when federal funds and GDP are;
    it holds nothing else. *)
Theorem signal_keys self indicators :
  Dict.keys (fst (get_trading_signals self indicators))
  = ((if Dict.contains "FED_FUNDS" indicators then ["bonds"] else [])
       ++ (if Dict.contains "GDP" indicators && Dict.contains "UNEMPLOYMENT" indicators
           then ["equities"] else [])
       ++ (if Dict.contains "FED_FUNDS" indicators && Dict.contains "GDP" indicators
           then ["dollar"] else []))%list.
Proof.
  unfold get_trading_signals, Dict.contains. case_gets; cbn;
    repeat (case_bool; cbn); reflexivity.
Qed.

(** X24.  Every signal text begins with its advice: BUY, SELL or HOLD,
    followed by the rationale. *)
Theorem signals_are_advice self indicators :
  Forall (fun entry => advice (snd entry)) (fst (get_trading_signals self indicators)).
Proof.
  unfold get_trading_signals, Dict.contains, advice. case_gets; cbn;
    repeat (case_bool; cbn);
    repeat (constructor; [cbn; auto|]); constructor.
Qed.

(** X25.  The dollar and bond signals never pull apart on the rate trend: a
    dollar BUY comes with a bonds SELL, and a dollar SELL with a bonds BUY. *)
Theorem dollar_follows_bonds self indicators :
  let signals := fst (get_trading_signals self indicators) in
  (Dict.get "dollar" signals = Some "BUY - Rising rates and growth support USD" ->
   Dict.get "bonds" signals = Some "SELL - Rising rates hurt bond prices")
  /\ (Dict.get "dollar" signals = Some "SELL - Falling rates and weak growth" ->
      Dict.get "bonds" signals = Some "BUY - Falling rates support bond prices").
Proof.
  cbv zeta. unfold get_trading_signals, Dict.contains.
  destruct (Dict.get "FED_FUNDS" indicators) as [fed_funds|];
    destruct (Dict.get "GDP" indicators) as [gdp|];
    destruct (Dict.get "UNEMPLOYMENT" indicators) as [unemployment|]; cbn;
    try match goal with
      | |- context [String.eqb (EconomicIndicator.trend ?x) "up"] =>
          destruct (String.eqb (EconomicIndicator.trend x) "up") eqn:Up;
          destruct (String.eqb (EconomicIndicator.trend x) "down") eqn:Down
      end;
    try (apply String.eqb_eq in Up; apply String.eqb_eq in Down; congruence);
    cbn; repeat (case_bool; cbn); split; intro H; first [reflexivity | discriminate H].
Qed.

End SignalExtras.

(** * Further properties of the query surface *)

Module ApiExtras.
Import indicators insights health FetcherSpec ExtraSpec.

(** X26.  The alerts endpoint never fails: it returns the agent's alerts
    for the store as it is, the empty list for the empty store, and leaves
    the agent as it was. *)
Theorem get_alerts_never_fails float_str intelligence_agent now economic_data_cache :
  get_alerts float_str intelligence_agent now economic_data_cache
  = (Return (fst (agent.check_alerts float_str intelligence_agent now economic_data_cache)),
     intelligence_agent).
Proof.
  unfold get_alerts, data_fetcher.get_economic_data.
  destruct economic_data_cache as [|item rest]; [reflexivity|].
  rewrite AgentProofs.check_alerts_expected. reflexivity.
Qed.

(** X27.  The all-indicators and insights endpoints answer 503 exactly when
    the store is empty; otherwise they return the whole store and the
    agent's insight for it.  The health endpoint always reports status
    healthy, with data available and a last update exactly when the store
    is not empty. *)
Theorem endpoints_on_empty_store float_str intelligence_agent now now' economic_data_cache :
  (get_indicators economic_data_cache = HTTPException 503 "Data not available"
   <-> economic_data_cache = [])
  /\ (fst (get_insights float_str intelligence_agent now economic_data_cache)
      = HTTPException 503 "Data not available" <-> economic_data_cache = [])
  /\ (economic_data_cache <> [] ->
      get_indicators economic_data_cache = Return economic_data_cache
      /\ get_insights float_str intelligence_agent now economic_data_cache
         = (Return (fst (agent.analyze_economic_conditions float_str intelligence_agent now
                           economic_data_cache)), intelligence_agent))
  /\ HealthCheck.status (health_check now now' economic_data_cache) = "healthy"
  /\ (HealthCheck.data_available (health_check now now' economic_data_cache) = true
      <-> economic_data_cache <> [])
  /\ (HealthCheck.last_update (health_check now now' economic_data_cache) = Some now'
      <-> economic_data_cache <> []).
Proof.
  unfold get_indicators, get_insights, health_check, data_fetcher.get_economic_data.
  destruct economic_data_cache as [|item rest]; cbn.
  - repeat split; intros; try reflexivity; try congruence; try discriminate.
  - repeat split; intros; try reflexivity; try congruence; try discriminate.
Qed.

(** X28.  After a refresh whose every fetch failed, the whole query surface
    reports missing data: 503 from the all-indicators and insights
    endpoints, 404 for every single indicator, no alerts, and a health
    record without data that still says healthy. *)
Theorem failed_refresh_at_the_endpoints
    float upstream old upper float_str intelligence_agent now now' :
  every_fetch_fails float upstream ->
  let store := data_fetcher.update_economic_data float upstream old in
  get_indicators store = HTTPException 503 "Data not available"
  /\ (forall name,
        get_indicator upper store name
        = HTTPException 404 ("Indicator " ++ upper name ++ " not found"))
  /\ fst (get_insights float_str intelligence_agent now store)
     = HTTPException 503 "Data not available"
  /\ fst (get_alerts float_str intelligence_agent now store) = Return []
  /\ health_check now now' store = HealthCheck.mk "healthy" now false None.
Proof.
  intros H store.
  assert (E : store = []).
  { unfold store, data_fetcher.update_economic_data.
    apply FetcherProofs.failed_steps_keep. exact H. }
  rewrite E. repeat split; reflexivity.
Qed.

Lemma failed_refresh_at_the_endpoints_witness :
  let store :=
    data_fetcher.update_economic_data (float_on [("5.33", 5.33); ("79.4", 79.4)])
      failing_upstream stored_before in
  get_indicators store = HTTPException 503 "Data not available"
  /\ (forall name,
        get_indicator QuerySpec.ascii_upper store name
        = HTTPException 404 ("Indicator " ++ QuerySpec.ascii_upper name ++ " not found"))
  /\ fst (get_insights (float_str_on [(7.5, "7.5")]) agent.__init__
            "2024-05-01T12:00:00" store)
     = HTTPException 503 "Data not available"
  /\ fst (get_alerts (float_str_on [(7.5, "7.5")]) agent.__init__
            "2024-05-01T12:00:00" store) = Return []
  /\ health_check "2024-05-01T12:00:00" "2024-05-01T12:00:01" store
     = HealthCheck.mk "healthy" "2024-05-01T12:00:00" false None.
Proof.
  apply (failed_refresh_at_the_endpoints (float_on [("5.33", 5.33); ("79.4", 79.4)])
           failing_upstream stored_before QuerySpec.ascii_upper
           (float_str_on [(7.5, "7.5")]) agent.__init__
           "2024-05-01T12:00:00" "2024-05-01T12:00:01").
  intros key cfg Hin. simpl in Hin.
  repeat (destruct Hin as [[= <- <-]|Hin]; [vm_compute; reflexivity|]). destruct Hin.
Defined.

(** X29.  On a refreshed store, a name that [str.upper] does not take to
    one of the five configured keys is not found, whatever was fetched. *)
Theorem unknown_indicator_not_found float upstream old upper name :
  ~ In (upper name) (Dict.keys config.CORE_INDICATORS) ->
  get_indicator upper (data_fetcher.update_economic_data float upstream old) name
  = HTTPException 404 ("Indicator " ++ upper name ++ " not found").
Proof.
  intro Hout. unfold get_indicator, data_fetcher.get_economic_data. cbv zeta.
  destruct (Dict.get (upper name) (data_fetcher.update_economic_data float upstream old))
    as [i|] eqn:E; [|reflexivity].
  exfalso. apply Hout. apply (QueryProofs.refreshed_key_configured _ _ _ _ _ E).
Qed.

(** The name housing, uppercased as ASCII text is. *)
Lemma unknown_indicator_not_found_witness :
  get_indicator QuerySpec.ascii_upper
    (data_fetcher.update_economic_data (float_on [("5.33", 5.33); ("79.4", 79.4)])
       failing_upstream stored_before) "housing"
  = HTTPException 404 ("Indicator " ++ QuerySpec.ascii_upper "housing" ++ " not found").
Proof.
  apply (unknown_indicator_not_found (float_on [("5.33", 5.33); ("79.4", 79.4)])
           failing_upstream stored_before QuerySpec.ascii_upper "housing").
  cbn. intuition discriminate.
Defined.

End ApiExtras.
